(** * dng_batch_converter: a shallow embedding of the batch RAW-to-DNG script

    The development follows [dng_batch_converter.py] function by function:
    [find_adobe_executable], [generate_unique_path], [setup_logger],
    [process_single_folder] and [main].  Strings are Rocq strings, paths
    are a model of [pathlib]'s pure POSIX paths (the flavour in effect on
    macOS and Linux), the file system is a finite map from paths to node
    kinds, and everything the script delegates to the outside world (the
    converter subprocess, the copy, directory creation and listing, the
    environment) is an oracle of the [Env] record, so that every theorem
    holds for every behaviour of those collaborators.

    Scope.  Strings are the bytes of their UTF-8 encoding.  Paths are parsed
    and spelled as [pathlib] does on POSIX; on Windows [pathlib] and
    [os.path] also split on the backslash and spell paths with it, which is
    not modelled.  [exists], [is_dir] and [is_file] are queries of the file
    system that always answer; the errors other than "not there" that
    [pathlib] may pass on from the system call (a name that is too long) are
    not modelled. *)

From Stdlib Require Import String Ascii DecimalString DecimalNat.
From stdpp Require Import base list strings gmap.

Local Open Scope string_scope.

(** ** Strings *)

Module Str.

(** [str(n)] for a non-negative [int]: the decimal digits. *)
Definition of_nat (n : nat) : string :=
  NilEmpty.string_of_uint (Nat.to_uint n).

(** [s.startswith('.')] *)
Definition startswith_dot (s : string) : bool :=
  match s with
  | String "." _ => true
  | _ => false
  end.

(** [s.split(c)]: never empty, one more field than occurrences of [c]. *)
Fixpoint split (c : ascii) (s : string) : list string :=
  match s with
  | "" => [""]
  | String a s' =>
      if Ascii.eqb a c then "" :: split c s'
      else match split c s' with
           | h :: t => String a h :: t
           | [] => [String a ""]
           end
  end.

(** [sep.join(l)] *)
Definition join (sep : string) (l : list string) : string :=
  String.concat sep l.

(** [c in s] for a single character. *)
Fixpoint mem (c : ascii) (s : string) : bool :=
  match s with
  | "" => false
  | String a s' => Ascii.eqb a c || mem c s'
  end.

(** [s.rfind(c)], [None] standing for -1. *)
Fixpoint rfind (c : ascii) (s : string) : option nat :=
  match s with
  | "" => None
  | String a s' =>
      match rfind c s' with
      | Some i => Some (S i)
      | None => if Ascii.eqb a c then Some 0 else None
      end
  end.

(** [s[i:]] and [s[:i]] *)
Fixpoint drop (i : nat) (s : string) : string :=
  match i, s with
  | S i', String _ s' => drop i' s'
  | _, _ => s
  end.

Fixpoint take (i : nat) (s : string) : string :=
  match i, s with
  | S i', String a s' => String a (take i' s')
  | _, _ => ""
  end.

(** [s.lower()] on the ASCII letters; bytes of other characters are kept
    (no character outside ASCII lower-cases to one of [.cr23]). *)
Definition lower_ascii (a : ascii) : ascii :=
  let n := nat_of_ascii a in
  if (65 <=? n)%nat && (n <=? 90)%nat then ascii_of_nat (n + 32) else a.

Fixpoint lower (s : string) : string :=
  match s with
  | "" => ""
  | String a s' => String (lower_ascii a) (lower s')
  end.

(** [s.strip()]: the white space of [str.isspace], which is the ASCII
    characters 9-13 and 28-32 and, in their UTF-8 encoding, U+0085, U+00A0,
    U+1680, U+2000-U+200A, U+2028, U+2029, U+202F, U+205F and U+3000. *)
Definition is_space (a : ascii) : bool :=
  let n := nat_of_ascii a in
  ((9 <=? n)%nat && (n <=? 13)%nat) || ((28 <=? n)%nat && (n <=? 32)%nat).

(** The bytes [a b] or [a b c] encode a white-space character. *)
Definition is_space2 (a b : ascii) : bool :=
  (nat_of_ascii a =? 194)%nat
  && ((nat_of_ascii b =? 133)%nat || (nat_of_ascii b =? 160)%nat).

Definition is_space3 (a b c : ascii) : bool :=
  let x := nat_of_ascii a in
  let y := nat_of_ascii b in
  let z := nat_of_ascii c in
  ((x =? 225)%nat && (y =? 154)%nat && (z =? 128)%nat)
  || ((x =? 226)%nat && (y =? 128)%nat
      && (((128 <=? z)%nat && (z <=? 138)%nat)
          || (z =? 168)%nat || (z =? 169)%nat || (z =? 175)%nat))
  || ((x =? 226)%nat && (y =? 129)%nat && (z =? 159)%nat)
  || ((x =? 227)%nat && (y =? 128)%nat && (z =? 128)%nat).

(** The string after one leading white-space character, if it has one. *)
Definition skip_space (s : string) : option string :=
  match s with
  | String a s1 =>
      if is_space a then Some s1
      else match s1 with
           | String b s2 =>
               if is_space2 a b then Some s2
               else match s2 with
                    | String c s3 => if is_space3 a b c then Some s3 else None
                    | "" => None
                    end
           | "" => None
           end
  | "" => None
  end.

(** The same for a string of bytes in reverse order. *)
Definition skip_space_rev (s : string) : option string :=
  match s with
  | String c s1 =>
      if is_space c then Some s1
      else match s1 with
           | String b s2 =>
               if is_space2 b c then Some s2
               else match s2 with
                    | String a s3 => if is_space3 a b c then Some s3 else None
                    | "" => None
                    end
           | "" => None
           end
  | "" => None
  end.

(** [n] bounds the number of characters to skip. *)
Fixpoint skip_spaces (skip : string -> option string) (n : nat) (s : string) : string :=
  match n with
  | 0 => s
  | S n' =>
      match skip s with
      | Some r => skip_spaces skip n' r
      | None => s
      end
  end.

Definition lstrip (s : string) : string :=
  skip_spaces skip_space (String.length s) s.

Definition rstrip (s : string) : string :=
  String.rev (skip_spaces skip_space_rev (String.length s) (String.rev s)).

Definition strip (s : string) : string := rstrip (lstrip s).

(** [s * n] *)
Fixpoint times (s : string) (n : nat) : string :=
  match n with
  | 0 => ""
  | S n' => s +:+ times s n'
  end.

(** [s.startswith(pre)] and [sub in s] *)
Fixpoint startswith (pre s : string) : bool :=
  match pre, s with
  | "", _ => true
  | String a pre', String b s' => Ascii.eqb a b && startswith pre' s'
  | _, _ => false
  end.

Fixpoint contains (sub s : string) : bool :=
  startswith sub s ||
  match s with
  | "" => false
  | String _ s' => contains sub s'
  end.

(** The double-quote character, for the messages that print one. *)
Definition dquote : string := String (ascii_of_nat 34) "".

End Str.

(** ** Paths: [pathlib.PurePosixPath] *)

(** A parsed path: the root ([""], ["/"] or ["//"]) and the components,
    from which empty and ["."] components have been dropped. *)
Record Path := mkPath { root : string; parts : list string }.

#[global] Instance Path_eq_dec : EqDecision Path.
Proof. solve_decision. Defined.

#[global] Instance Path_countable : Countable Path :=
  inj_countable' (fun p => (root p, parts p)) (fun rp => mkPath rp.1 rp.2)
                 (fun p => match p with mkPath _ _ => eq_refl end).

Module PurePath.

(** [posixpath.splitroot]: one leading slash is the root, exactly two are
    kept as they are, three or more count as one. *)
Definition splitroot (p : string) : string * string :=
  match p with
  | String "/" (String "/" (String "/" r)) => ("/", String "/" (String "/" r))
  | String "/" (String "/" r) => ("//", r)
  | String "/" r => ("/", r)
  | _ => ("", p)
  end.

Definition proper_part (x : string) : Prop := x ≠ "" ∧ x ≠ ".".

#[global] Instance proper_part_dec x : Decision (proper_part x).
Proof. unfold proper_part. apply _. Defined.

(** [Path(s)] *)
Definition of_string (s : string) : Path :=
  let '(rt, rel) := splitroot s in
  mkPath rt (filter proper_part (Str.split "/" rel)).

(** [str(p)], in the POSIX spelling *)
Definition to_string (p : Path) : string :=
  match root p +:+ Str.join "/" (parts p) with
  | "" => "."
  | s => s
  end.

(** [p / s]: an absolute right operand replaces the left one. *)
Definition truediv (p : Path) (s : string) : Path :=
  let q := of_string s in
  match root q with
  | "" => mkPath (root p) (parts p ++ parts q)
  | _ => q
  end.

(** [p.name] *)
Definition name (p : Path) : string := List.last (parts p) "".

(** [PurePath.suffix] and [PurePath.stem], on the final component. *)
Definition suffix_of (nm : string) : string :=
  match Str.rfind "." nm with
  | Some i =>
      if (0 <? i)%nat && (i <? String.length nm - 1)%nat then Str.drop i nm else ""
  | None => ""
  end.

Definition stem_of (nm : string) : string :=
  match Str.rfind "." nm with
  | Some i =>
      if (0 <? i)%nat && (i <? String.length nm - 1)%nat then Str.take i nm else nm
  | None => nm
  end.

Definition suffix (p : Path) : string := suffix_of (name p).
Definition stem (p : Path) : string := stem_of (name p).

End PurePath.

Notation "p // s" := (PurePath.truediv p s) (at level 40, left associativity).

(** ** The world the script runs in *)

Inductive kind := RegularFile | Directory.

(** The file system: the paths that exist, with what they are. *)
Abbreviation FS := (gmap Path kind).

Definition path_exists (fs : FS) (p : Path) : bool :=
  match fs !! p with Some _ => true | None => false end.

Definition path_is_dir (fs : FS) (p : Path) : bool :=
  match fs !! p with Some Directory => true | _ => false end.

Definition path_is_file (fs : FS) (p : Path) : bool :=
  match fs !! p with Some RegularFile => true | _ => false end.

Inductive exn := Exception (msg : string).

Definition exn_msg (e : exn) : string := match e with Exception m => m end.

(** The argument of [sys.exit]: a message (printed, status 1) or a status. *)
Inductive exit_arg := ExitMessage (msg : string) | ExitStatus (n : nat).

Record CompletedProcess := mkCompleted {
  returncode : Z;
  stdout : string;
  stderr : string
}.

Inductive level := INFO | WARNING | ERROR.

Inductive handler := FileHandler (p : Path) | StreamHandler.

(** What the script does that can be observed from outside, in order. *)
Inductive event :=
| Print (msg : string)
| Log (lv : level) (msg : string)
| Run (cmd : list string)
| Copy (src dst : Path).

Record World := mkWorld {
  fs : FS;
  handlers : list handler;
  trace : list event
}.

(** The collaborators.  Each oracle sees the current file system, so its
    answer may depend on everything the script has done so far. *)
Record Env := mkEnv {
  (** [os.environ.get] *)
  environ : string -> option string;
  (** [platform.system()] *)
  platform_system : string;
  (** [Path.resolve] *)
  resolve : Path -> Path;
  (** [open(p, 'r', encoding='utf-8')] and [f.readlines()] of a regular
      file: its lines, or the error raised (the file cannot be read, or is
      not UTF-8) *)
  readlines : Path -> FS -> exn + list string;
  (** why [mkdir] of a missing directory fails, if it does *)
  mkdir_error : Path -> FS -> option exn;
  (** why opening a file for writing fails, if it does *)
  open_error : Path -> FS -> option exn;
  (** [os.scandir]: the entry names in the order the system gives them,
      or the error it raises *)
  scandir : Path -> FS -> exn + list string;
  (** [subprocess.run]: either it raises or it returns a completed
      process; in both cases the file system is what the tool left *)
  converter : list string -> FS -> (exn + CompletedProcess) * FS;
  (** why [shutil.copy2] of an existing file fails, if it does *)
  copy_error : Path -> Path -> FS -> option exn;
  (** whether a copy that fails does so after it has created its
      destination (the destination cannot be opened: no; the disk fills up
      or the metadata cannot be set: yes) *)
  copy_partial : Path -> Path -> FS -> bool
}.

(** ** A monad for state, exceptions and [sys.exit] *)

Inductive outcome (A : Type) :=
| Done (a : A)
| Raise (e : exn)
| SysExit (x : exit_arg).
Arguments Done {A} a.
Arguments Raise {A} e.
Arguments SysExit {A} x.

Definition M (A : Type) : Type := World -> outcome A * World.

Definition ret {A} (a : A) : M A := fun w => (Done a, w).

Definition bind {A B} (m : M A) (k : A -> M B) : M B :=
  fun w =>
    match m w with
    | (Done a, w') => k a w'
    | (Raise e, w') => (Raise e, w')
    | (SysExit x, w') => (SysExit x, w')
    end.

Notation "x <- m ;; k" := (bind m (fun x => k))
  (at level 100, m at next level, right associativity).
Notation "m ;;; k" := (bind m (fun _ => k))
  (at level 100, right associativity).

Definition raise {A} (e : exn) : M A := fun w => (Raise e, w).

Definition sys_exit {A} (x : exit_arg) : M A := fun w => (SysExit x, w).

(** [try: m except Exception as e: h e].  [SystemExit] is not an
    [Exception] and passes through. *)
Definition try_except {A} (m : M A) (h : exn -> M A) : M A :=
  fun w =>
    match m w with
    | (Raise e, w') => h e w'
    | r => r
    end.

Definition get_fs : M FS := fun w => (Done (fs w), w).

Definition emit (e : event) : M unit :=
  fun w => (Done tt, mkWorld (fs w) (handlers w) (trace w ++ [e])).

Definition print (msg : string) : M unit := emit (Print msg).
Definition logging_info (msg : string) : M unit := emit (Log INFO msg).
Definition logging_warning (msg : string) : M unit := emit (Log WARNING msg).
Definition logging_error (msg : string) : M unit := emit (Log ERROR msg).

Definition set_fs (fs' : FS) : M unit :=
  fun w => (Done tt, mkWorld fs' (handlers w) (trace w)).

Definition set_handlers (hs : list handler) : M unit :=
  fun w => (Done tt, mkWorld (fs w) hs (trace w)).

Definition get_handlers : M (list handler) := fun w => (Done (handlers w), w).

(** ** Primitives of the standard library *)

(** [p.mkdir(exist_ok=True)] *)
Definition mkdir_exist_ok (E : Env) (p : Path) : M unit :=
  cur <- get_fs ;;
  match cur !! p with
  | Some Directory => ret tt
  | Some RegularFile => raise (Exception "FileExistsError")
  | None =>
      match mkdir_error E p cur with
      | Some e => raise e
      | None => set_fs (<[p := Directory]> cur)
      end
  end.

(** [logging.FileHandler(p, mode='w')]: the file is created or truncated. *)
Definition open_FileHandler (E : Env) (p : Path) : M handler :=
  cur <- get_fs ;;
  match cur !! p with
  | Some Directory => raise (Exception "IsADirectoryError")
  | _ =>
      match open_error E p cur with
      | Some e => raise e
      | None => set_fs (<[p := RegularFile]> cur) ;;; ret (FileHandler p)
      end
  end.

(** [list(p.iterdir())]: each entry name becomes a child of [p]. *)
Definition iterdir (E : Env) (p : Path) : M (list Path) :=
  cur <- get_fs ;;
  match scandir E p cur with
  | inl e => raise e
  | inr names => ret (map (fun n => mkPath (root p) (parts p ++ [n])) names)
  end.

(** [subprocess.run(cmd, capture_output=True, text=True)] *)
Definition subprocess_run (E : Env) (cmd : list string) : M CompletedProcess :=
  emit (Run cmd) ;;;
  cur <- get_fs ;;
  match converter E cmd cur with
  | (inl e, fs') => set_fs fs' ;;; raise e
  | (inr result, fs') => set_fs fs' ;;; ret result
  end.

(** [shutil.copy2(src, dst)]: the source is opened, then the destination
    is opened for writing, filled and given the metadata of the source; a
    copy that fails on the way leaves what it has written. *)
Definition shutil_copy2 (E : Env) (src dst : Path) : M unit :=
  emit (Copy src dst) ;;;
  cur <- get_fs ;;
  match cur !! src with
  | Some RegularFile =>
      match copy_error E src dst cur with
      | Some e =>
          (if copy_partial E src dst cur then set_fs (<[dst := RegularFile]> cur)
           else ret tt) ;;;
          raise e
      | None => set_fs (<[dst := RegularFile]> cur)
      end
  | Some Directory => raise (Exception "IsADirectoryError")
  | None => raise (Exception "FileNotFoundError")
  end.

(** [with open(p, 'r', encoding='utf-8') as f: f.readlines()] *)
Definition open_readlines (E : Env) (p : Path) : M (list string) :=
  cur <- get_fs ;;
  match cur !! p with
  | Some RegularFile =>
      match readlines E p cur with
      | inl e => raise e
      | inr lines => ret lines
      end
  | Some Directory => raise (Exception "IsADirectoryError")
  | None => raise (Exception "FileNotFoundError")
  end.

(** [os.path.basename] *)
Definition basename (p : string) : string :=
  match Str.rfind "/" p with
  | Some i => Str.drop (S i) p
  | None => p
  end.

(** ** Configuration constants *)

Definition SUPPORTED_EXTENSIONS : gset string := {[ ".cr2"; ".cr3" ]}.
Definition ADOBE_ARGS : list string := ["-lossy"; "-fl"].
Definition OUTPUT_DIR_NAME : string := "DNG".
Definition LOG_FILENAME : string := "conversion_log.txt".

Definition WINDOWS_DEFAULT : string :=
  "C:\Program Files\Adobe\Adobe DNG Converter\Adobe DNG Converter.exe".
Definition DARWIN_DEFAULT : string :=
  "/Applications/Adobe DNG Converter.app/Contents/MacOS/Adobe DNG Converter".

(** ** [setup_logger] *)

Definition setup_logger (E : Env) (dest_folder : Path) : M bool :=
  let log_file_path := dest_folder // LOG_FILENAME in
  hs <- get_handlers ;;
  (match hs with [] => ret tt | _ => set_handlers [] end) ;;;
  opened <- try_except
              (file_handler <- open_FileHandler E log_file_path ;;
               hs <- get_handlers ;;
               set_handlers (hs ++ [file_handler]) ;;;
               ret true)
              (fun e =>
                 print ("CRITICAL ERROR: Could not create log file in "
                        +:+ PurePath.to_string dest_folder +:+ ": " +:+ exn_msg e) ;;;
                 ret false) ;;
  if opened : bool then
    hs <- get_handlers ;;
    set_handlers (hs ++ [StreamHandler]) ;;;
    ret true
  else ret false.

(** ** [find_adobe_executable] *)

Definition find_adobe_executable (E : Env) : M string :=
  let env_path := environ E "ADOBE_DNG_PATH" in
  custom <- match env_path with
            | Some v =>
                if bool_decide (v ≠ "") then
                  let path := PurePath.of_string v in
                  cur <- get_fs ;;
                  if path_exists cur path then ret (Some (PurePath.to_string path))
                  else ret None
                else ret None
            | None => ret None
            end ;;
  match custom with
  | Some s => ret s
  | None =>
      let system_os := platform_system E in
      path <- (if bool_decide (system_os = "Windows") then
                 ret (PurePath.of_string WINDOWS_DEFAULT)
               else if bool_decide (system_os = "Darwin") then
                 ret (PurePath.of_string DARWIN_DEFAULT)
               else
                 sys_exit (ExitMessage ("Unsupported Operating System: " +:+ system_os))) ;;
      cur <- get_fs ;;
      if negb (path_exists cur path) then
        print ("CRITICAL ERROR: Adobe DNG Converter not found at: "
               +:+ PurePath.to_string path) ;;;
        print "Please install it or set the 'ADOBE_DNG_PATH' environment variable." ;;;
        sys_exit (ExitStatus 1)
      else ret (PurePath.to_string path)
  end.

(** ** [generate_unique_path] *)

(** The [while file_path.exists()] loop, with the loop variables as
    arguments; [fuel] bounds the number of tests of the condition. *)
Fixpoint unique_loop (fuel : nat) (cur : FS) (dest_folder : Path)
    (base_name extension : string)
    (counter : nat) (filename : string) (file_path : Path)
  : option (string * Path * nat) :=
  match fuel with
  | 0 => None
  | S fuel' =>
      if path_exists cur file_path then
        let counter := counter + 1 in
        let filename := base_name +:+ "_" +:+ Str.of_nat counter +:+ extension in
        let file_path := dest_folder // filename in
        unique_loop fuel' cur dest_folder base_name extension counter filename file_path
      else Some (filename, file_path, counter)
  end.

Definition generate_unique_path_fuel (fuel : nat) (cur : FS) (dest_folder : Path)
    (base_name extension : string) : option (string * Path * nat) :=
  let counter := 0 in
  let extension :=
    if negb (Str.startswith_dot extension) then "." +:+ extension else extension in
  let filename := base_name +:+ extension in
  let file_path := dest_folder // filename in
  unique_loop fuel cur dest_folder base_name extension counter filename file_path.

(** The loop tests at most [size cur + 2] candidates (see
    [generate_unique_path_fuel_enough]), so this is the function itself. *)
Definition generate_unique_path_pure (cur : FS) (dest_folder : Path)
    (base_name extension : string) : string * Path * nat :=
  default ("", dest_folder, 0)
    (generate_unique_path_fuel (size cur + 2) cur dest_folder base_name extension).

(** The call as the script makes it: it reads the file system and changes
    nothing. *)
Definition generate_unique_path (dest_folder : Path) (base_name extension : string)
  : M (string * Path * nat) :=
  cur <- get_fs ;;
  ret (generate_unique_path_pure cur dest_folder base_name extension).

(** ** [process_single_folder] *)

Record Stats := mkStats { converted : nat; copied : nat; errors : nat }.

(** The body of [for i, raw_file in enumerate(raw_files, 1)]. *)
Definition process_file (E : Env) (dest_path : Path) (adobe_exe : string)
    (total i : nat) (raw_file : Path) (stats : Stats) : M Stats :=
  r <- generate_unique_path dest_path (PurePath.stem raw_file) ".dng" ;;
  let '(dng_name, dng_path, idx) := r in
  logging_info ("[" +:+ Str.of_nat i +:+ "/" +:+ Str.of_nat total +:+ "] Processing: "
                +:+ PurePath.name raw_file) ;;;
  (if (0 <? idx)%nat then
     logging_warning ("  -> Name collision detected. Saving as: " +:+ dng_name)
   else ret tt) ;;;
  let cmd := ([adobe_exe] ++ ADOBE_ARGS
              ++ ["-d"; PurePath.to_string dest_path; "-o"; dng_name;
                  PurePath.to_string raw_file])%list in
  try_except
    (result <- subprocess_run E cmd ;;
     cur <- get_fs ;;
     if path_exists cur dng_path then
       ret (mkStats (converted stats + 1) (copied stats) (errors stats))
     else
       let error_msg := stderr result in
       logging_warning ("  -> Conversion FAILED for " +:+ PurePath.name raw_file +:+ ".") ;;;
       let clean_errors :=
         List.filter (fun line => negb (Str.contains "GPU" line)
                                  && negb (String.eqb (Str.strip line) ""))
                     (Str.split "010" error_msg) in
       (match clean_errors with
        | [] => ret tt
        | _ => logging_warning ("     Adobe Error Details: " +:+ Str.join "; " clean_errors)
        end) ;;;
       logging_info "  -> Attempting to COPY original file to output folder..." ;;;
       try_except
         (r <- generate_unique_path dest_path (PurePath.stem raw_file)
                                    (PurePath.suffix raw_file) ;;
          let '(copy_name, copy_dest, copy_idx) := r in
          shutil_copy2 E raw_file copy_dest ;;;
          (if (0 <? copy_idx)%nat then
             logging_info ("  -> Original file copied with rename: " +:+ copy_name)
           else
             logging_info "  -> Original file copied successfully.") ;;;
          ret (mkStats (converted stats) (copied stats + 1) (errors stats)))
         (fun e_copy =>
            logging_error ("  -> CRITICAL: Failed to convert AND failed to copy "
                           +:+ PurePath.name raw_file) ;;;
            logging_error ("     Copy Error: " +:+ exn_msg e_copy) ;;;
            ret (mkStats (converted stats) (copied stats) (errors stats + 1))))
    (fun e =>
       logging_error ("Fatal Python Error processing " +:+ PurePath.name raw_file
                      +:+ ": " +:+ exn_msg e) ;;;
       ret (mkStats (converted stats) (copied stats) (errors stats + 1))).

(** The [for] loop over [raw_files], [i] counting from 1. *)
Fixpoint process_files (E : Env) (dest_path : Path) (adobe_exe : string)
    (total i : nat) (raw_files : list Path) (stats : Stats) : M Stats :=
  match raw_files with
  | [] => ret stats
  | raw_file :: rest =>
      stats' <- process_file E dest_path adobe_exe total i raw_file stats ;;
      process_files E dest_path adobe_exe total (S i) rest stats'
  end.

Definition is_raw_file (cur : FS) (f : Path) : bool :=
  path_is_file cur f
  && bool_decide (Str.lower (PurePath.suffix f) ∈ SUPPORTED_EXTENSIONS).

Definition process_single_folder (E : Env) (source_path_str adobe_exe : string) : M unit :=
  let source_path := resolve E (PurePath.of_string source_path_str) in
  cur <- get_fs ;;
  if negb (path_exists cur source_path) || negb (path_is_dir cur source_path) then
    print ("SKIPPING: Invalid directory path: " +:+ PurePath.to_string source_path)
  else
    let dest_path := source_path // OUTPUT_DIR_NAME in
    created <- try_except
                 (mkdir_exist_ok E dest_path ;;; ret true)
                 (fun e =>
                    print ("CRITICAL ERROR: Could not create output directory at "
                           +:+ PurePath.to_string source_path +:+ ". Error: "
                           +:+ exn_msg e) ;;;
                    ret false) ;;
    if negb created then ret tt
    else
      logger_ok <- setup_logger E dest_path ;;
      if negb logger_ok then ret tt
      else
        logging_info ("Started processing. Log saved to: "
                      +:+ PurePath.to_string dest_path) ;;;
        let command_template :=
          basename adobe_exe +:+ " " +:+ Str.join " " ADOBE_ARGS +:+ " -d "
          +:+ Str.dquote +:+ PurePath.to_string dest_path +:+ Str.dquote
          +:+ " -o [OUTPUT_NAME] [INPUT_FILE]" in
        logging_info ("Batch Conversion Command Template: " +:+ command_template) ;;;
        children <- iterdir E source_path ;;
        cur <- get_fs ;;
        let raw_files := List.filter (is_raw_file cur) children in
        match raw_files with
        | [] => logging_warning "No supported RAW files found in this directory."
        | _ =>
            logging_info ("Found " +:+ Str.of_nat (length raw_files)
                          +:+ " RAW files to process.") ;;;
            stats <- process_files E dest_path adobe_exe (length raw_files) 1
                                   raw_files (mkStats 0 0 0) ;;
            logging_info (Str.times "-" 40) ;;;
            logging_info ("SUMMARY: " +:+ Str.of_nat (converted stats)
                          +:+ " Converted (DNG) | " +:+ Str.of_nat (copied stats)
                          +:+ " Copied (Originals) | " +:+ Str.of_nat (errors stats)
                          +:+ " Total Failures") ;;;
            logging_info (Str.times "=" 40)
        end.

(** ** [main] *)

(** [for i, folder in enumerate(folders, 1)] *)
Fixpoint process_folders (E : Env) (adobe_exe : string) (total i : nat)
    (folders : list string) : M unit :=
  match folders with
  | [] => ret tt
  | folder :: rest =>
      print (String "010" ">>> Processing Folder " +:+ Str.of_nat i +:+ "/"
             +:+ Str.of_nat total +:+ ": " +:+ folder) ;;;
      process_single_folder E folder adobe_exe ;;;
      process_folders E adobe_exe total (S i) rest
  end.

(** [main], from the parsed [list_file] argument on. *)
Definition main (E : Env) (list_file : string) : M unit :=
  let list_path := PurePath.of_string list_file in
  cur <- get_fs ;;
  if negb (path_exists cur list_path) then
    print "Error: The provided list file does not exist." ;;;
    sys_exit (ExitStatus 1)
  else
    adobe_exe <- find_adobe_executable E ;;
    print ("Reading directory list from: " +:+ PurePath.name list_path
           +:+ "..." +:+ String "010" "") ;;;
    lines <- open_readlines E list_path ;;
    let folders :=
      List.filter (fun l => negb (String.eqb l ""))
                  (map Str.strip lines) in
    print ("Total folders to process: " +:+ Str.of_nat (length folders)) ;;;
    print (Str.times "-" 30) ;;;
    process_folders E adobe_exe (length folders) 1 folders ;;;
    print (String "010" "Batch processing complete.").

(** ** The unique-name algorithm as the specification words it *)

(** The extension, normalised to start with a dot. *)
Definition normalized_extension (extension : string) : string :=
  if Str.startswith_dot extension then extension else "." +:+ extension.

(** The candidate for collision count [count]: [base.ext] for 0 and
    [base_<count>.ext] after that. *)
Definition candidate_name (base ext : string) (count : nat) : string :=
  match count with
  | 0 => base +:+ ext
  | S _ => base +:+ "_" +:+ Str.of_nat count +:+ ext
  end.

(** ** The conversion result of the specification *)

(** Per raw file, one of converted, copied, errored. *)
Inductive conversion_result := Converted | Copied | Errored.

(** Recording a result in the counters. *)
Definition record (stats : Stats) (r : conversion_result) : Stats :=
  match r with
  | Converted => mkStats (converted stats + 1) (copied stats) (errors stats)
  | Copied => mkStats (converted stats) (copied stats + 1) (errors stats)
  | Errored => mkStats (converted stats) (copied stats) (errors stats + 1)
  end.

Definition tally (stats : Stats) (rs : list conversion_result) : Stats :=
  fold_left record rs stats.

Definition processed (stats : Stats) : nat :=
  converted stats + copied stats + errors stats.

(** The copy attempts and the converter invocations of a trace. *)
Definition copy_attempts (t : list event) : list (Path * Path) :=
  omap (fun e => match e with Copy src dst => Some (src, dst) | _ => None end) t.

Definition invocations (t : list event) : list (list string) :=
  omap (fun e => match e with Run cmd => Some cmd | _ => None end) t.

(** The command line of one conversion, as [process_single_folder] builds it. *)
Definition conversion_command (adobe_exe : string) (dest_path : Path)
    (dng_name : string) (raw_file : Path) : list string :=
  [adobe_exe; "-lossy"; "-fl"; "-d"; PurePath.to_string dest_path; "-o"; dng_name;
   PurePath.to_string raw_file].

(** An environment whose converter reports other exit statuses and is the
    same in everything else: [g] maps the command, the file system before
    the run and the status reported to the status reported instead. *)
Definition with_exit_status (g : list string -> FS -> Z -> Z) (E : Env) : Env :=
  mkEnv (environ E) (platform_system E) (resolve E) (readlines E)
        (mkdir_error E) (open_error E) (scandir E)
        (fun cmd cur =>
           match converter E cmd cur with
           | (inr result, fs') =>
               (inr (mkCompleted (g cmd cur (returncode result))
                                 (stdout result) (stderr result)), fs')
           | raised => raised
           end)
        (copy_error E) (copy_partial E).

(** ** The converter locator of the specification *)

(** The default path per platform identifier, for the two supported ones. *)
Definition default_for (system_os : string) : option string :=
  if bool_decide (system_os = "Windows") then Some WINDOWS_DEFAULT
  else if bool_decide (system_os = "Darwin") then Some DARWIN_DEFAULT
  else None.

(** Steps 2 to 4 of the resolution order: the platform default, a fatal
    error on any other platform, a fatal error naming the missing path and
    suggesting the override when the default does not exist. *)
Definition default_resolution (E : Env) : M string :=
  fun w =>
    match default_for (platform_system E) with
    | None =>
        (SysExit (ExitMessage ("Unsupported Operating System: " +:+ platform_system E)), w)
    | Some d =>
        if path_exists (fs w) (PurePath.of_string d) then (Done d, w)
        else (SysExit (ExitStatus 1),
              mkWorld (fs w) (handlers w)
                (trace w
                   ++ [Print ("CRITICAL ERROR: Adobe DNG Converter not found at: " +:+ d);
                       Print "Please install it or set the 'ADOBE_DNG_PATH' environment variable."]))
    end.

(** Step 1 as the specification words it: an override that is set and
    names an existing path is used verbatim. *)
Definition locate_verbatim (E : Env) : M string :=
  fun w =>
    match environ E "ADOBE_DNG_PATH" with
    | Some v =>
        if path_exists (fs w) (PurePath.of_string v) then (Done v, w)
        else default_resolution E w
    | None => default_resolution E w
    end.

(** The locator as the code runs: the override counts when it is a
    non-empty string, and what is returned is [str(Path(v))]. *)
Definition locate_normalized (E : Env) : M string :=
  fun w =>
    match environ E "ADOBE_DNG_PATH" with
    | Some v =>
        if bool_decide (v ≠ "") && path_exists (fs w) (PurePath.of_string v)
        then (Done (PurePath.to_string (PurePath.of_string v)), w)
        else default_resolution E w
    | None => default_resolution E w
    end.

(** The environment with the override variable unset. *)
Definition without_override (E : Env) : Env :=
  mkEnv (fun k => if bool_decide (k = "ADOBE_DNG_PATH") then None else environ E k)
        (platform_system E) (resolve E) (readlines E)
        (mkdir_error E) (open_error E) (scandir E) (converter E) (copy_error E)
        (copy_partial E).

(** ** A photo shoot to run the script on *)

Module Scenario.

Definition nl : string := String "010" "".

Definition exe : string := DARWIN_DEFAULT.
Definition list_file : string := "/list.txt".
Definition day1 : Path := PurePath.of_string "/photos/day1".
Definition day2 : Path := PurePath.of_string "/photos/day2".
Definition dest : Path := day1 // OUTPUT_DIR_NAME.
Definition cr2 : Path := day1 // "IMG_0001.cr2".
Definition cr3 : Path := day1 // "IMG_0001.cr3".
Definition other : Path := day2 // "IMG_0002.CR2".
Definition cwd : Path := PurePath.of_string "".

(** Two folders; the first holds two raw files with one stem and a file
    that is not a raw file.  A converter sits in the working directory. *)
Definition disk : FS :=
  {[ cwd := Directory;
     PurePath.of_string "tools/dng" := RegularFile;
     PurePath.of_string list_file := RegularFile;
     PurePath.of_string exe := RegularFile;
     day1 := Directory;
     cr2 := RegularFile;
     cr3 := RegularFile;
     day1 // "notes.txt" := RegularFile;
     day2 := Directory;
     other := RegularFile ]}.

Definition world : World := mkWorld disk [] [].

(** A converter that writes the output it is asked for, and exits 0. *)
Definition converter_creating_output (cmd : list string) (cur : FS)
  : (exn + CompletedProcess) * FS :=
  match cmd with
  | [_; _; _; _; d; _; n; _] =>
      (inr (mkCompleted 0 "" ""), <[PurePath.of_string d // n := RegularFile]> cur)
  | _ => (inr (mkCompleted 2 "" "usage"), cur)
  end.

(** A converter that writes nothing, complains and exits 1. *)
Definition converter_without_output (cmd : list string) (cur : FS)
  : (exn + CompletedProcess) * FS :=
  (inr (mkCompleted 1 "" ("GPU not available" +:+ nl +:+ "cannot read file" +:+ nl)), cur).

(** A converter that cannot be started: [subprocess.run] raises. *)
Definition converter_not_launched (cmd : list string) (cur : FS)
  : (exn + CompletedProcess) * FS :=
  (inl (Exception "[Errno 13] Permission denied"), cur).

Definition listing (p : Path) (cur : FS) : exn + list string :=
  if decide (p = day1) then inr ["IMG_0001.cr2"; "notes.txt"; "IMG_0001.cr3"]
  else if decide (p = day2) then inr ["IMG_0002.CR2"]
  else inl (Exception "[Errno 2] No such file or directory").

(** The first folder may be entered and written to, but not listed. *)
Definition listing_unreadable (p : Path) (cur : FS) : exn + list string :=
  if decide (p = day1) then inl (Exception "[Errno 13] Permission denied")
  else listing p cur.

Definition env (override : option string)
    (conv : list string -> FS -> (exn + CompletedProcess) * FS)
    (ls : Path -> FS -> exn + list string) : Env :=
  {| environ := fun k => if bool_decide (k = "ADOBE_DNG_PATH") then override else None;
     platform_system := "Darwin";
     resolve := fun p => p;
     readlines := fun _ _ => inr ["/photos/day1" +:+ nl; nl; "  /photos/day2  " +:+ nl];
     mkdir_error := fun _ _ => None;
     open_error := fun _ _ => None;
     scandir := ls;
     converter := conv;
     copy_error := fun _ _ _ => None;
     copy_partial := fun _ _ _ => false |}.

End Scenario.

(** ** Containment of errors *)

(** [contained P m w]: run from [w], the computation [m] ends normally, or
    raises an exception [e] in a world [w'] with [P e w']; it does not call
    [sys.exit]. *)
Definition contained {A} (P : exn -> World -> Prop) (m : M A) (w : World) : Prop :=
  match m w with
  | (Done _, _) => True
  | (Raise e, w') => P e w'
  | (SysExit _, _) => False
  end.

(** The error a directory listing raises, when it does. *)
Definition listing_error (E : Env) (e : exn) (w : World) : Prop :=
  exists p : Path, scandir E p (fs w) = inl e.

(** The error reading the list file [p] raises, when it does. *)
Definition reading_error (E : Env) (p : Path) (e : exn) (w : World) : Prop :=
  (open_readlines E p w).1 = Raise e.


(** ** The steps of a folder, for the statements about whole runs *)

(** Whether [p.mkdir(exist_ok=True)] succeeds in the file system [cur], and
    the file system after it when it does. *)
Definition mkdir_succeeds (E : Env) (p : Path) (cur : FS) : bool :=
  match cur !! p with
  | Some Directory => true
  | Some RegularFile => false
  | None => match mkdir_error E p cur with Some _ => false | None => true end
  end.

Definition after_mkdir (p : Path) (cur : FS) : FS :=
  match cur !! p with
  | Some Directory => cur
  | _ => <[p := Directory]> cur
  end.

(** Whether the log file [p] can be opened for writing. *)
Definition open_succeeds (E : Env) (p : Path) (cur : FS) : bool :=
  match cur !! p with
  | Some Directory => false
  | _ => match open_error E p cur with Some _ => false | None => true end
  end.

(** The two lines every folder's log starts with. *)
Definition opening_lines (adobe_exe : string) (dest_path : Path) : list event :=
  [Log INFO ("Started processing. Log saved to: " +:+ PurePath.to_string dest_path);
   Log INFO ("Batch Conversion Command Template: "
             +:+ (basename adobe_exe +:+ " " +:+ Str.join " " ADOBE_ARGS +:+ " -d "
                  +:+ Str.dquote +:+ PurePath.to_string dest_path +:+ Str.dquote
                  +:+ " -o [OUTPUT_NAME] [INPUT_FILE]"))].

(** The three lines a folder's log ends with. *)
Definition closing_lines (stats : Stats) : list event :=
  [Log INFO (Str.times "-" 40);
   Log INFO ("SUMMARY: " +:+ Str.of_nat (converted stats)
             +:+ " Converted (DNG) | " +:+ Str.of_nat (copied stats)
             +:+ " Copied (Originals) | " +:+ Str.of_nat (errors stats)
             +:+ " Total Failures");
   Log INFO (Str.times "=" 40)].

(** The line that announces folder [i] of [total]. *)
Definition folder_banner (total i : nat) (folder : string) : event :=
  Print (String "010" ">>> Processing Folder " +:+ Str.of_nat i +:+ "/"
         +:+ Str.of_nat total +:+ ": " +:+ folder).

Definition skipping_line (source_path : Path) : event :=
  Print ("SKIPPING: Invalid directory path: " +:+ PurePath.to_string source_path).

(** Whether [shutil.copy2(src, dst)] succeeds in the file system [cur]. *)
Definition copy_succeeds (E : Env) (src dst : Path) (cur : FS) : bool :=
  match cur !! src with
  | Some RegularFile =>
      match copy_error E src dst cur with Some _ => false | None => true end
  | _ => false
  end.

(** Whether [shutil.copy2(src, dst)] leaves a file at [dst]: it succeeded,
    or it failed after it had created its destination. *)
Definition copy_writes (E : Env) (src dst : Path) (cur : FS) : bool :=
  match cur !! src with
  | Some RegularFile =>
      match copy_error E src dst cur with
      | Some _ => copy_partial E src dst cur
      | None => true
      end
  | _ => false
  end.

(** [p / name] for a directory entry, as [iterdir] builds it. *)
Definition child (p : Path) (name : string) : Path :=
  mkPath (root p) (parts p ++ [name]).

(** The paths of a folder task: the source directory, the output directory
    and the log file. *)
Definition source_of (E : Env) (folder : string) : Path :=
  resolve E (PurePath.of_string folder).

Definition dest_of (E : Env) (folder : string) : Path :=
  source_of E folder // OUTPUT_DIR_NAME.

Definition log_of (E : Env) (folder : string) : Path :=
  dest_of E folder // LOG_FILENAME.

(** The folder can be prepared: it is a directory, its output directory
    exists or can be created, and the log file can be opened in it. *)
Definition folder_ready (E : Env) (folder : string) (cur : FS) : bool :=
  path_is_dir cur (source_of E folder)
  && mkdir_succeeds E (dest_of E folder) cur
  && open_succeeds E (log_of E folder) (after_mkdir (dest_of E folder) cur).

(** The file system once the folder is prepared, and the raw files the
    listing [names] then gives. *)
Definition prepared_fs (E : Env) (folder : string) (cur : FS) : FS :=
  <[log_of E folder := RegularFile]> (after_mkdir (dest_of E folder) cur).

Definition raw_files_of (E : Env) (folder : string) (cur : FS) (names : list string)
  : list Path :=
  List.filter (is_raw_file (prepared_fs E folder cur))
              (map (child (source_of E folder)) names).

(** A path in normal form: one of the three roots, and components that are
    non-empty, not ["."] and free of the separator.  [PurePath.of_string]
    only builds such paths. *)
Definition normal_path (p : Path) : Prop :=
  (root p = "" \/ root p = "/" \/ root p = "//")
  /\ Forall (fun x => PurePath.proper_part x /\ Str.mem "/" x = false) (parts p).

(** * Properties *)

(** ** Strings and paths *)

Section StringFacts.

Lemma string_app_cons (x : ascii) (a b : string) :
  String x a +:+ b = String x (a +:+ b).
Proof. reflexivity. Qed.

Lemma string_app_empty (b : string) : "" +:+ b = b.
Proof. reflexivity. Qed.

Lemma string_app_assoc (a b c : string) : (a +:+ b) +:+ c = a +:+ (b +:+ c).
Proof.
  induction a as [|x a IH]; [reflexivity|].
  rewrite !string_app_cons. now rewrite IH.
Qed.

Lemma string_app_length (a b : string) :
  String.length (a +:+ b) = String.length a + String.length b.
Proof.
  induction a as [|x a IH]; [reflexivity|].
  rewrite string_app_cons. simpl. now rewrite IH.
Qed.

Lemma string_app_inv_tail (a b c : string) : a +:+ c = b +:+ c -> a = b.
Proof.
  revert b. induction a as [|x a IH]; intros [|y b] H;
    rewrite ?string_app_cons, ?string_app_empty in H.
  - reflexivity.
  - apply (f_equal String.length) in H. simpl in H.
    rewrite string_app_length in H. lia.
  - apply (f_equal String.length) in H. simpl in H.
    rewrite string_app_length in H. lia.
  - injection H as -> H. f_equal. now apply IH.
Qed.

Lemma string_app_inv_head (a b c : string) : a +:+ b = a +:+ c -> b = c.
Proof.
  induction a as [|x a IH]; intros H; [assumption|].
  rewrite !string_app_cons in H. injection H. assumption.
Qed.

Lemma of_nat_inj (j k : nat) : Str.of_nat j = Str.of_nat k -> j = k.
Proof.
  unfold Str.of_nat. intros H.
  apply DecimalNat.Unsigned.to_uint_inj.
  apply (f_equal NilEmpty.uint_of_string) in H.
  rewrite !NilEmpty.usu in H. now injection H.
Qed.

Lemma digits_no_slash (d : Decimal.uint) :
  Str.mem "/" (NilEmpty.string_of_uint d) = false.
Proof. induction d; simpl; auto. Qed.

Lemma of_nat_no_slash (n : nat) : Str.mem "/" (Str.of_nat n) = false.
Proof. apply digits_no_slash. Qed.

Lemma mem_app (c : ascii) (a b : string) :
  Str.mem c (a +:+ b) = Str.mem c a || Str.mem c b.
Proof.
  induction a as [|x a IH]; [reflexivity|].
  rewrite string_app_cons. simpl. rewrite IH. now rewrite orb_assoc.
Qed.

Lemma split_nonempty (c : ascii) (s : string) : Str.split c s <> [].
Proof.
  induction s as [|a s IH]; simpl; [discriminate|].
  destruct (Ascii.eqb a c); [discriminate|].
  destruct (Str.split c s); [contradiction | discriminate].
Qed.

(** Splitting a concatenation: the fields of the left string, the last
    of them glued to the first field of the right string. *)
Lemma split_app (c : ascii) (a : string) :
  exists (pre : list string) (lst : string), forall t h r,
    Str.split c t = h :: r ->
    Str.split c (a +:+ t) = (pre ++ (lst +:+ h) :: r)%list.
Proof.
  induction a as [|x a (pre & lst & IH)].
  - exists [], "". intros t h r Ht. simpl. assumption.
  - destruct (Ascii.eqb x c) eqn:Hx.
    + exists ("" :: pre), lst. intros t h r Ht.
      rewrite string_app_cons. simpl. now rewrite Hx, (IH t h r Ht).
    + destruct pre as [|p pre].
      * exists [], (String x lst). intros t h r Ht.
        rewrite string_app_cons. simpl. now rewrite Hx, (IH t h r Ht).
      * exists (String x p :: pre), lst. intros t h r Ht.
        rewrite string_app_cons. simpl. now rewrite Hx, (IH t h r Ht).
Qed.

(** A string without the separator is a prefix of the first field. *)
Lemma split_app_no_sep (c : ascii) (m t : string) (h : string) (r : list string) :
  Str.mem c m = false -> Str.split c t = h :: r ->
  Str.split c (m +:+ t) = (m +:+ h) :: r.
Proof.
  intros Hm Ht. induction m as [|x m IH]; [assumption|].
  simpl in Hm. apply orb_false_iff in Hm as [Hx Hm].
  rewrite !string_app_cons. simpl. rewrite Hx, (IH Hm). reflexivity.
Qed.

Lemma parts_of_string (s : string) :
  parts (PurePath.of_string s) = filter PurePath.proper_part (Str.split "/" s).
Proof.
  unfold PurePath.of_string, PurePath.splitroot.
  destruct s as [|a [|b [|c s]]]; simpl; try reflexivity.
  - destruct (Ascii.eqb_spec a "/") as [->|Ha]; [reflexivity|].
    destruct a as [[] [] [] [] [] [] [] []]; try reflexivity; congruence.
  - destruct (Ascii.eqb_spec a "/") as [->|Ha].
    + destruct (Ascii.eqb_spec b "/") as [->|Hb]; [reflexivity|].
      destruct b as [[] [] [] [] [] [] [] []]; try reflexivity; congruence.
    + destruct a as [[] [] [] [] [] [] [] []]; try reflexivity; congruence.
  - destruct (Ascii.eqb_spec a "/") as [->|Ha].
    + destruct (Ascii.eqb_spec b "/") as [->|Hb].
      * destruct (Ascii.eqb_spec c "/") as [->|Hc]; [reflexivity|].
        destruct c as [[] [] [] [] [] [] [] []]; try reflexivity; congruence.
      * destruct b as [[] [] [] [] [] [] [] []]; try reflexivity; congruence.
    + destruct a as [[] [] [] [] [] [] [] []]; try reflexivity; congruence.
Qed.

End StringFacts.

(** ** [generate_unique_path] *)

Section UniquePath.

Variables (dest : Path) (base ext : string).

(** The numbered candidates differ in one component only. *)
Lemma numbered_parts :
  exists (pre : list string) (lst h : string) (r : list string), forall k,
    parts (PurePath.of_string (base +:+ "_" +:+ Str.of_nat k +:+ ext))
    = (filter PurePath.proper_part pre
         ++ (lst +:+ ("_" +:+ Str.of_nat k) +:+ h) :: filter PurePath.proper_part r)%list.
Proof.
  destruct (split_app "/" base) as (pre & lst & Hbase).
  destruct (Str.split "/" ext) as [|h r] eqn:Hext; [now apply split_nonempty in Hext|].
  exists pre, lst, h, r. intros k.
  rewrite parts_of_string.
  assert (Hnum : Str.mem "/" ("_" +:+ Str.of_nat k) = false).
  { rewrite mem_app, of_nat_no_slash. reflexivity. }
  pose proof (split_app_no_sep "/" _ _ _ _ Hnum Hext) as Hmid.
  rewrite string_app_assoc in Hmid.
  rewrite (Hbase _ _ _ Hmid), filter_app, filter_cons_True.
  - now rewrite string_app_assoc.
  - assert (Hu : Str.mem "_" (lst +:+ (("_" +:+ Str.of_nat k) +:+ h)) = true).
    { rewrite !mem_app. simpl. now rewrite orb_true_r. }
    split; intros Heq; rewrite Heq in Hu; discriminate Hu.
Qed.

(** Whether a numbered candidate is absolute depends on [base] alone. *)
Lemma numbered_root :
  exists rt : string, forall x : string,
    root (PurePath.of_string (base +:+ "_" +:+ x)) = rt.
Proof.
  unfold PurePath.of_string, PurePath.splitroot.
  destruct base as [|a [|b [|c s]]]; rewrite ?string_app_cons, ?string_app_empty.
  - now exists "".
  - destruct (Ascii.eqb_spec a "/") as [->|Ha]; [now exists "/"|].
    exists "". intros x.
    destruct a as [[] [] [] [] [] [] [] []]; try reflexivity; congruence.
  - destruct (Ascii.eqb_spec a "/") as [->|Ha].
    + destruct (Ascii.eqb_spec b "/") as [->|Hb]; [now exists "//"|].
      exists "/". intros x.
      destruct b as [[] [] [] [] [] [] [] []]; try reflexivity; congruence.
    + exists "". intros x.
      destruct a as [[] [] [] [] [] [] [] []]; try reflexivity; congruence.
  - destruct (Ascii.eqb_spec a "/") as [->|Ha].
    + destruct (Ascii.eqb_spec b "/") as [->|Hb].
      * destruct (Ascii.eqb_spec c "/") as [->|Hc]; [now exists "/"|].
        exists "//". intros x.
        destruct c as [[] [] [] [] [] [] [] []]; try reflexivity; congruence.
      * exists "/". intros x.
        destruct b as [[] [] [] [] [] [] [] []]; try reflexivity; congruence.
    + exists "". intros x.
      destruct a as [[] [] [] [] [] [] [] []]; try reflexivity; congruence.
Qed.

(** Distinct collision counts give distinct paths. *)
Lemma numbered_path_inj (j k : nat) :
  dest // (base +:+ "_" +:+ Str.of_nat j +:+ ext)
  = dest // (base +:+ "_" +:+ Str.of_nat k +:+ ext) ->
  j = k.
Proof.
  intros Heq.
  assert (Hparts : parts (PurePath.of_string (base +:+ "_" +:+ Str.of_nat j +:+ ext))
                   = parts (PurePath.of_string (base +:+ "_" +:+ Str.of_nat k +:+ ext))).
  { destruct numbered_root as (rt & Hrt).
    unfold PurePath.truediv in Heq. rewrite !Hrt in Heq.
    destruct rt.
    - injection Heq as Heq. now apply app_inv_head in Heq.
    - now rewrite Heq. }
  destruct numbered_parts as (pre & lst & h & r & Hnum).
  rewrite !Hnum in Hparts.
  apply app_inv_head in Hparts. injection Hparts as Hc.
  apply string_app_inv_head, string_app_inv_tail, string_app_inv_head in Hc.
  now apply of_nat_inj.
Qed.

Variable cur : FS.

(** A finite file system leaves one of the first [size cur + 1] numbered
    candidates free. *)
Lemma numbered_free_exists :
  exists k, 1 <= k <= size cur + 1
            /\ path_exists cur (dest // candidate_name base ext k) = false.
Proof.
  destruct (decide (Forall (fun k => path_exists cur (dest // candidate_name base ext k) = true)
                           (seq 1 (size cur + 1)))) as [Hall|Hsome].
  - exfalso.
    set (cands := (fun k => dest // candidate_name base ext k) <$> seq 1 (size cur + 1)).
    assert (Hlen : length cands <= length (elements (dom cur))).
    { apply submseteq_length, NoDup_submseteq.
      - apply NoDup_fmap_2_strong; [|apply NoDup_seq].
        intros j k Hj Hk Hjk.
        apply elem_of_seq in Hj, Hk.
        destruct j as [|j]; [lia|]. destruct k as [|k]; [lia|].
        now apply numbered_path_inj in Hjk.
      - intros p Hp. apply list_elem_of_fmap in Hp as (k & -> & Hk).
        rewrite Forall_forall in Hall. specialize (Hall k Hk).
        apply elem_of_elements, elem_of_dom.
        unfold path_exists in Hall.
        destruct (cur !! (dest // candidate_name base ext k)); [eauto | discriminate]. }
    unfold cands in Hlen. rewrite length_fmap, length_seq in Hlen.
    change (length (elements (dom cur))) with (size (dom cur)) in Hlen.
    rewrite size_dom in Hlen. lia.
  - apply not_Forall_Exists in Hsome; [|intros k; apply _].
    apply Exists_exists in Hsome as (k & Hk & Hfree).
    apply elem_of_seq in Hk. exists k. split; [lia|].
    apply not_true_is_false. exact Hfree.
Qed.

(** The least free collision count. *)
Lemma least_free_exists :
  exists m, m <= size cur + 1
            /\ path_exists cur (dest // candidate_name base ext m) = false
            /\ forall k, k < m -> path_exists cur (dest // candidate_name base ext k) = true.
Proof.
  destruct numbered_free_exists as (k0 & Hk0 & Hfree0).
  destruct (dec_inh_nat_subset_has_unique_least_element
              (fun k => path_exists cur (dest // candidate_name base ext k) = false))
    as (m & (Hm & Hleast) & _).
  - intros n. destruct (path_exists cur (dest // candidate_name base ext n)); auto.
  - eauto.
  - exists m. split; [|split].
    + specialize (Hleast k0 Hfree0). lia.
    + exact Hm.
    + intros k Hk.
      destruct (path_exists cur (dest // candidate_name base ext k)) eqn:Hex; [reflexivity|].
      specialize (Hleast k Hex). lia.
Qed.

(** The loop, entered at count [c] with the candidate of [c], walks to the
    first free count. *)
Lemma unique_loop_reaches (fuel c m : nat) :
  c <= m -> m - c < fuel ->
  (forall k, c <= k < m -> path_exists cur (dest // candidate_name base ext k) = true) ->
  path_exists cur (dest // candidate_name base ext m) = false ->
  unique_loop fuel cur dest base ext c (candidate_name base ext c)
              (dest // candidate_name base ext c)
  = Some (candidate_name base ext m, dest // candidate_name base ext m, m).
Proof.
  revert c. induction fuel as [|fuel IH]; intros c Hcm Hfuel Hbusy Hfree; [lia|].
  simpl. destruct (decide (c = m)) as [->|Hne].
  - now rewrite Hfree.
  - rewrite Hbusy by lia.
    replace (c + 1) with (S c) by lia.
    apply (IH (S c)); [lia | lia | intros k Hk; apply Hbusy; lia | exact Hfree].
Qed.

End UniquePath.

Lemma extension_normalized (extension : string) :
  (if negb (Str.startswith_dot extension) then "." +:+ extension else extension)
  = normalized_extension extension.
Proof. unfold normalized_extension. now destruct (Str.startswith_dot extension). Qed.

(** With [size cur + 2] tests or more the search returns the candidate of
    the least free collision count. *)
Lemma generate_unique_path_fuel_enough (cur : FS) (dest : Path) (base ext : string)
    (extra : nat) :
  exists count,
    let e := normalized_extension ext in
    generate_unique_path_fuel (size cur + 2 + extra) cur dest base ext
    = Some (candidate_name base e count, dest // candidate_name base e count, count)
    /\ path_exists cur (dest // candidate_name base e count) = false
    /\ forall k, k < count -> path_exists cur (dest // candidate_name base e k) = true.
Proof.
  destruct (least_free_exists dest base (normalized_extension ext) cur)
    as (m & Hm & Hfree & Hbusy).
  exists m. cbv zeta. split; [|split; assumption].
  unfold generate_unique_path_fuel. rewrite extension_normalized.
  apply (unique_loop_reaches dest base (normalized_extension ext) cur _ 0 m);
    [lia | lia | intros k Hk; apply Hbusy; lia | exact Hfree].
Qed.

Lemma generate_unique_path_pure_spec (cur : FS) (dest : Path) (base ext : string) :
  exists count,
    let e := normalized_extension ext in
    generate_unique_path_pure cur dest base ext
    = (candidate_name base e count, dest // candidate_name base e count, count)
    /\ path_exists cur (dest // candidate_name base e count) = false
    /\ forall k, k < count -> path_exists cur (dest // candidate_name base e k) = true.
Proof.
  destruct (generate_unique_path_fuel_enough cur dest base ext 0) as (m & Hrun & Hrest).
  exists m. cbv zeta in *. split; [|exact Hrest].
  unfold generate_unique_path_pure. rewrite Nat.add_0_r in Hrun. now rewrite Hrun.
Qed.

(** C9: the collision-suffix search of [generate_unique_path] terminates on
    every (finite) file system: once the loop may test [size cur + 2]
    candidates or more, it returns a result, the same for every larger
    bound, and the path of that result is not present. *)
Theorem generate_unique_path_terminates (cur : FS) (dest : Path) (base ext : string) :
  exists (filename : string) (file_path : Path) (counter : nat),
    (forall extra,
        generate_unique_path_fuel (size cur + 2 + extra) cur dest base ext
        = Some (filename, file_path, counter))
    /\ counter <= size cur + 1
    /\ path_exists cur file_path = false.
Proof.
  destruct (least_free_exists dest base (normalized_extension ext) cur)
    as (m & Hm & Hfree & Hbusy).
  exists (candidate_name base (normalized_extension ext) m),
         (dest // candidate_name base (normalized_extension ext) m), m.
  split; [|split; assumption].
  intros extra. unfold generate_unique_path_fuel. rewrite extension_normalized.
  apply (unique_loop_reaches dest base (normalized_extension ext) cur _ 0 m);
    [lia | lia | intros k Hk; apply Hbusy; lia | exact Hfree].
Qed.

(** C3: [generate_unique_path] returns a path that does not exist at call
    time, and its result follows the algorithm: the extension is normalised
    to start with a dot, the candidate of count 0 is [base.ext], every
    candidate below the returned count exists (each one a collision that
    incremented the count), and the returned name is [base_<count>.ext];
    the call leaves the world as it found it. *)
Theorem generate_unique_path_spec (w : World) (dest : Path) (base ext : string) :
  exists count,
    let e := normalized_extension ext in
    let filename := candidate_name base e count in
    generate_unique_path dest base ext w = (Done (filename, dest // filename, count), w)
    /\ path_exists (fs w) (dest // filename) = false
    /\ candidate_name base e 0 = base +:+ e
    /\ (forall k, k < count ->
                  path_exists (fs w) (dest // candidate_name base e k) = true)
    /\ (0 < count -> filename = base +:+ "_" +:+ Str.of_nat count +:+ e)
    /\ Str.startswith_dot e = true.
Proof.
  destruct (generate_unique_path_pure_spec (fs w) dest base ext) as (m & Hrun & Hfree & Hbusy).
  exists m. cbv zeta in *. repeat split; try assumption.
  - unfold generate_unique_path, bind, get_fs, ret. now rewrite Hrun.
  - intros Hpos. destruct m; [lia | reflexivity].
  - unfold normalized_extension. destruct (Str.startswith_dot ext) eqn:Hd; [exact Hd | reflexivity].
Qed.

(** X14: the result only depends on which candidates up to the returned
    count exist: any other change of the file system leaves it as it is. *)
Lemma generate_unique_path_stable (cur cur' : FS) (dest : Path) (base ext : string) :
  (forall k, k <= (generate_unique_path_pure cur dest base ext).2 ->
             path_exists cur' (dest // candidate_name base (normalized_extension ext) k)
             = path_exists cur (dest // candidate_name base (normalized_extension ext) k)) ->
  generate_unique_path_pure cur' dest base ext = generate_unique_path_pure cur dest base ext.
Proof.
  destruct (generate_unique_path_pure_spec cur dest base ext) as (m & Hrun & Hfree & Hbusy).
  cbv zeta in *. rewrite Hrun. simpl. intros Hsame.
  destruct (generate_unique_path_pure_spec cur' dest base ext) as (m' & Hrun' & Hfree' & Hbusy').
  cbv zeta in *. rewrite Hrun'.
  assert (m' = m) as ->; [|reflexivity].
  destruct (Nat.lt_trichotomy m' m) as [Hlt | [Heq | Hgt]]; [|exact Heq|].
  - specialize (Hbusy m' Hlt). rewrite <- Hsame in Hbusy by lia. congruence.
  - specialize (Hbusy' m Hgt). rewrite Hsame in Hbusy' by lia. congruence.
Qed.

(** Once the returned path has been created the next call moves on. *)
Lemma generate_unique_path_after_create (cur cur' : FS) (dest : Path) (base ext : string) :
  (forall p, path_exists cur p = true -> path_exists cur' p = true) ->
  path_exists cur' (generate_unique_path_pure cur dest base ext).1.2 = true ->
  (generate_unique_path_pure cur dest base ext).2
  < (generate_unique_path_pure cur' dest base ext).2.
Proof.
  destruct (generate_unique_path_pure_spec cur dest base ext) as (m & Hrun & Hfree & Hbusy).
  destruct (generate_unique_path_pure_spec cur' dest base ext) as (m' & Hrun' & Hfree' & Hbusy').
  cbv zeta in *. rewrite Hrun, Hrun'. simpl. intros Hmono Hnow.
  destruct (Nat.lt_trichotomy m' m) as [Hlt | [Heq | Hgt]]; [| |exact Hgt].
  - specialize (Hbusy m' Hlt). apply Hmono in Hbusy. rewrite Hfree' in Hbusy. discriminate.
  - subst m'. rewrite Hfree' in Hnow. discriminate.
Qed.

Lemma path_exists_insert (cur : FS) (p q : Path) (k : kind) :
  path_exists cur q = true -> path_exists (<[p := k]> cur) q = true.
Proof.
  unfold path_exists. destruct (decide (p = q)) as [->|Hne].
  - now rewrite lookup_insert_eq.
  - now rewrite lookup_insert_ne.
Qed.

Lemma path_exists_insert_eq (cur : FS) (p : Path) (k : kind) :
  path_exists (<[p := k]> cur) p = true.
Proof. unfold path_exists. now rewrite lookup_insert_eq. Qed.

(** C8: two calls of [generate_unique_path] in a row for the same
    destination, base name and extension return the same (name, path,
    counter) triple, the first call having changed nothing; once the
    returned path has been created, a further call returns a higher count. *)
Theorem generate_unique_path_idempotent (w : World) (dest : Path) (base ext : string) :
  exists r : string * Path * nat,
    (first <- generate_unique_path dest base ext ;;
     second <- generate_unique_path dest base ext ;;
     ret (first, second)) w
    = (Done (r, r), w)
    /\ forall k : kind,
        r.2 < (generate_unique_path_pure (<[r.1.2 := k]> (fs w)) dest base ext).2.
Proof.
  exists (generate_unique_path_pure (fs w) dest base ext). split; [reflexivity|].
  intros k. apply generate_unique_path_after_create.
  - intros p. apply path_exists_insert.
  - apply path_exists_insert_eq.
Qed.

(** ** The per-file step *)

Ltac unfold_monad :=
  unfold generate_unique_path, subprocess_run, shutil_copy2,
    logging_info, logging_warning, logging_error, print,
    bind, ret, raise, try_except, get_fs, set_fs, emit in *.

Lemma copy_attempts_app (t u : list event) :
  copy_attempts (t ++ u) = (copy_attempts t ++ copy_attempts u)%list.
Proof. apply omap_app. Qed.

Lemma invocations_app (t u : list event) :
  invocations (t ++ u) = (invocations t ++ invocations u)%list.
Proof. apply omap_app. Qed.

Ltac observe :=
  simpl; rewrite ?copy_attempts_app, ?invocations_app; simpl;
  rewrite ?app_nil_r, <- ?app_assoc; simpl.

(** What one run of the loop body does, by cases on what the converter and
    the copy do.  [fs1] is the file system the converter leaves. *)
Lemma process_file_cases (E : Env) (dest : Path) (exe : string) (total i : nat)
    (f : Path) (stats : Stats) (w : World) :
  let '(dng_name, dng_path, idx) :=
    generate_unique_path_pure (fs w) dest (PurePath.stem f) ".dng" in
  let cmd := conversion_command exe dest dng_name f in
  exists (r : conversion_result) (w' : World),
    process_file E dest exe total i f stats w = (Done (record stats r), w')
    /\ invocations (trace w') = (invocations (trace w) ++ [cmd])%list
    /\ match converter E cmd (fs w) with
       | (inl e, fs1) =>
           r = Errored /\ fs w' = fs1
           /\ copy_attempts (trace w') = copy_attempts (trace w)
       | (inr result, fs1) =>
           if path_exists fs1 dng_path then
             r = Converted /\ fs w' = fs1
             /\ copy_attempts (trace w') = copy_attempts (trace w)
           else
             let '(copy_name, copy_dest, copy_idx) :=
               generate_unique_path_pure fs1 dest (PurePath.stem f) (PurePath.suffix f) in
             copy_attempts (trace w') = (copy_attempts (trace w) ++ [(f, copy_dest)])%list
             /\ (r = Copied /\ fs w' = <[copy_dest := RegularFile]> fs1
                 \/ r = Errored
                    /\ (fs w' = fs1 \/ fs w' = <[copy_dest := RegularFile]> fs1))
       end.
Proof.
  unfold process_file, conversion_command. unfold_monad.
  destruct (generate_unique_path_pure (fs w) dest (PurePath.stem f) ".dng")
    as [[dng_name dng_path] idx].
  destruct (0 <? idx)%nat; simpl;
    (destruct (converter E _ (fs w)) as [[e|result] fs1]; simpl;
     [ exists Errored; eexists; split; [reflexivity|]; observe; auto | ]);
    (destruct (path_exists fs1 dng_path);
     [ exists Converted; eexists; split; [reflexivity|]; observe; auto | ]);
    (destruct (List.filter _ _); simpl;
     destruct (generate_unique_path_pure fs1 dest (PurePath.stem f) (PurePath.suffix f))
       as [[copy_name copy_dest] copy_idx]; simpl;
     (destruct (fs1 !! f) as [[]|]; simpl;
      [ | exists Errored; eexists; split; [reflexivity|]; observe; auto 8 ..]);
     (destruct (copy_error E f copy_dest fs1); simpl;
      [ destruct (copy_partial E f copy_dest fs1); simpl;
        exists Errored; eexists; (split; [reflexivity|]); observe; auto 8 | ]);
     destruct (0 <? copy_idx)%nat; simpl;
     exists Copied; eexists; (split; [reflexivity|]); observe; auto 8).
Qed.

(** Every run of the loop body ends normally and records exactly one
    result. *)
Lemma process_file_records_one (E : Env) (dest : Path) (exe : string) (total i : nat)
    (f : Path) (stats : Stats) (w : World) :
  exists (r : conversion_result) (w' : World),
    process_file E dest exe total i f stats w = (Done (record stats r), w').
Proof.
  pose proof (process_file_cases E dest exe total i f stats w) as H.
  destruct (generate_unique_path_pure (fs w) dest (PurePath.stem f) ".dng") as [[? ?] ?].
  destruct H as (r & w' & H & _). eauto.
Qed.

Lemma processed_record (stats : Stats) (r : conversion_result) :
  processed (record stats r) = processed stats + 1.
Proof. destruct r; unfold processed; simpl; lia. Qed.

Lemma processed_tally (rs : list conversion_result) (stats : Stats) :
  processed (tally stats rs) = processed stats + length rs.
Proof.
  unfold tally. revert stats. induction rs as [|r rs IH]; intros stats; simpl; [lia|].
  rewrite IH, processed_record. lia.
Qed.

Lemma process_files_tally (E : Env) (dest : Path) (exe : string) (total i : nat)
    (raw_files : list Path) (stats : Stats) (w : World) :
  exists (results : list conversion_result) (w' : World),
    process_files E dest exe total i raw_files stats w = (Done (tally stats results), w')
    /\ length results = length raw_files.
Proof.
  revert i stats w. induction raw_files as [|f rest IH]; intros i stats w.
  - exists [], w. simpl. split; reflexivity.
  - destruct (process_file_records_one E dest exe total i f stats w) as (r & w1 & Hstep).
    destruct (IH (S i) (record stats r) w1) as (rs & w' & Hrest & Hlen).
    exists (r :: rs), w'. simpl. unfold bind. rewrite Hstep.
    split; [exact Hrest | now rewrite Hlen].
Qed.

(** C7: the per-file loop of a folder completes, each enumerated raw file
    is recorded as exactly one of converted, copied and errored, and so the
    three counters sum to the number of enumerated raw files (on top of
    what they held before the loop, which is 0 in [process_single_folder]). *)
Theorem process_files_counts (E : Env) (dest : Path) (exe : string) (total i : nat)
    (raw_files : list Path) (stats : Stats) (w : World) :
  exists (results : list conversion_result) (w' : World),
    process_files E dest exe total i raw_files stats w = (Done (tally stats results), w')
    /\ length results = length raw_files
    /\ converted (tally stats results) + copied (tally stats results)
       + errors (tally stats results)
       = converted stats + copied stats + errors stats + length raw_files.
Proof.
  destruct (process_files_tally E dest exe total i raw_files stats w)
    as (rs & w' & Hrun & Hlen).
  exists rs, w'. split; [exact Hrun|]. split; [exact Hlen|].
  pose proof (processed_tally rs stats) as Hsum. unfold processed in Hsum. lia.
Qed.

(** ** Extensions *)

Section Suffix.

Lemma rfind_split (c : ascii) (s : string) (i : nat) :
  Str.rfind c s = Some i ->
  exists pre e, s = pre +:+ String c e /\ String.length pre = i /\ Str.rfind c e = None.
Proof.
  revert i. induction s as [|a s IH]; intros i; simpl; [discriminate|].
  destruct (Str.rfind c s) as [j|] eqn:Hs.
  - intros [= <-]. destruct (IH j eq_refl) as (pre & e & -> & Hlen & He).
    exists (String a pre), e. rewrite string_app_cons. simpl. auto.
  - destruct (Ascii.eqb_spec a c) as [->|]; [|discriminate].
    intros [= <-]. exists "", s. auto.
Qed.

Lemma rfind_app (c : ascii) (pre e : string) :
  Str.rfind c e = None -> Str.rfind c (pre +:+ String c e) = Some (String.length pre).
Proof.
  intros He. induction pre as [|a pre IH].
  - rewrite string_app_empty. simpl. now rewrite He, Ascii.eqb_refl.
  - rewrite string_app_cons. simpl. now rewrite IH.
Qed.

Lemma drop_app_length (pre s : string) : Str.drop (String.length pre) (pre +:+ s) = s.
Proof.
  induction pre as [|a pre IH]; [now destruct s|].
  rewrite string_app_cons. simpl. exact IH.
Qed.

Lemma take_app_length (pre s : string) : Str.take (String.length pre) (pre +:+ s) = pre.
Proof.
  induction pre as [|a pre IH]; [now destruct s|].
  rewrite string_app_cons. simpl. now rewrite IH.
Qed.

Lemma suffix_window (pre e : string) :
  ((0 <? String.length pre)%nat
   && (String.length pre <? String.length (pre +:+ String "." e) - 1)%nat)
  = negb (String.eqb pre "") && negb (String.eqb e "").
Proof.
  rewrite string_app_length. simpl.
  destruct pre as [|a pre]; [reflexivity|].
  destruct e as [|b e]; simpl.
  - apply Nat.ltb_ge. lia.
  - apply Nat.ltb_lt. lia.
Qed.

(** A name with a suffix is a non-empty stem, a dot and a non-empty
    extension without dots. *)
Lemma suffix_shape (nm : string) :
  PurePath.suffix_of nm <> "" ->
  exists pre e,
    nm = pre +:+ String "." e /\ pre <> "" /\ e <> "" /\ Str.rfind "." e = None
    /\ PurePath.suffix_of nm = String "." e /\ PurePath.stem_of nm = pre.
Proof.
  unfold PurePath.suffix_of, PurePath.stem_of.
  destruct (Str.rfind "." nm) as [i|] eqn:Hr; [|congruence].
  destruct (rfind_split _ _ _ Hr) as (pre & e & -> & <- & He).
  rewrite suffix_window, drop_app_length, take_app_length.
  destruct pre as [|a pre]; [simpl; congruence|].
  destruct e as [|b e]; [simpl; congruence|].
  simpl. intros _. exists (String a pre), (String b e). repeat split; congruence.
Qed.

Lemma suffix_of_app (pre e : string) :
  pre <> "" -> e <> "" -> Str.rfind "." e = None ->
  PurePath.suffix_of (pre +:+ String "." e) = String "." e.
Proof.
  intros Hpre He Hr. unfold PurePath.suffix_of.
  rewrite (rfind_app _ _ _ Hr), suffix_window, drop_app_length.
  destruct pre; [congruence|]. destruct e; [congruence|]. reflexivity.
Qed.

(** The names [generate_unique_path] tries for a file's stem and its own
    suffix all carry that suffix. *)
Lemma candidate_keeps_suffix (nm : string) (count : nat) :
  PurePath.suffix_of nm <> "" ->
  PurePath.suffix_of
    (candidate_name (PurePath.stem_of nm)
                    (normalized_extension (PurePath.suffix_of nm)) count)
  = PurePath.suffix_of nm.
Proof.
  intros Hs. destruct (suffix_shape nm Hs) as (pre & e & _ & Hpre & He & Hr & -> & ->).
  unfold normalized_extension. simpl.
  destruct count as [|n]; simpl.
  - now apply suffix_of_app.
  - rewrite <- (string_app_assoc "_"), <- string_app_assoc.
    apply suffix_of_app; [|assumption..].
    destruct pre; [congruence | discriminate].
Qed.

Lemma supported_suffix (sfx : string) :
  Str.lower sfx ∈ SUPPORTED_EXTENSIONS -> sfx <> "" /\ sfx <> ".dng".
Proof.
  unfold SUPPORTED_EXTENSIONS. rewrite elem_of_union, !elem_of_singleton.
  intros H. split; intros ->; simpl in H; destruct H; discriminate.
Qed.

End Suffix.

(** ** Success is decided by the output file *)

Lemma exit_status_irrelevant (g : list string -> FS -> Z -> Z) (E : Env) (dest : Path)
    (exe : string) (total i : nat) (f : Path) (stats : Stats) (w : World) :
  process_file (with_exit_status g E) dest exe total i f stats w
  = process_file E dest exe total i f stats w.
Proof.
  unfold process_file. unfold_monad. unfold with_exit_status. simpl.
  destruct (generate_unique_path_pure (fs w) dest (PurePath.stem f) ".dng")
    as [[dng_name dng_path] idx].
  destruct (0 <? idx)%nat; simpl;
    destruct (converter E _ _) as [[e|result] fs1]; reflexivity.
Qed.

(** C2: when the subprocess returns, the file is recorded as converted
    exactly when the expected output file exists in the file system the
    subprocess left, and a run in which the subprocess reports any other
    exit status (same output streams, same resulting file system) records
    the same result and ends in the same world. *)
Theorem converted_iff_output_exists (g : list string -> FS -> Z -> Z) (E : Env)
    (dest : Path) (exe : string) (total i : nat) (f : Path) (stats : Stats) (w : World)
    (result : CompletedProcess) (fs1 : FS) :
  converter E
    (conversion_command exe dest
       (generate_unique_path_pure (fs w) dest (PurePath.stem f) ".dng").1.1 f)
    (fs w) = (inr result, fs1) ->
  exists (r : conversion_result) (w' : World),
    process_file E dest exe total i f stats w = (Done (record stats r), w')
    /\ (r = Converted
        <-> path_exists fs1
              (generate_unique_path_pure (fs w) dest (PurePath.stem f) ".dng").1.2 = true)
    /\ process_file (with_exit_status g E) dest exe total i f stats w
       = (Done (record stats r), w').
Proof.
  intros Hrun. rewrite exit_status_irrelevant.
  pose proof (process_file_cases E dest exe total i f stats w) as H.
  destruct (generate_unique_path_pure (fs w) dest (PurePath.stem f) ".dng")
    as [[dng_name dng_path] idx].
  simpl in *. destruct H as (r & w' & Hstep & _ & Hcase).
  rewrite Hrun in Hcase. exists r, w'. split; [exact Hstep|]. split; [|exact Hstep].
  destruct (path_exists fs1 dng_path).
  - destruct Hcase as (-> & _). tauto.
  - destruct (generate_unique_path_pure fs1 dest _ _) as [[? ?] ?].
    destruct Hcase as (_ & [(-> & _) | (-> & _)]); split; discriminate.
Qed.

(** ** The fallback copy *)

(** C5, as amended: when the subprocess returns, the step makes no copy
    attempt if the expected output file exists and exactly one if it does
    not; that one copies the raw file into the destination under a name
    whose extension is the raw file's own extension, which is not [.dng]. *)
Theorem fallback_copy_once (E : Env) (dest : Path) (exe : string) (total i : nat)
    (f : Path) (stats : Stats) (w : World) (result : CompletedProcess) (fs1 : FS) :
  Str.lower (PurePath.suffix f) ∈ SUPPORTED_EXTENSIONS ->
  converter E
    (conversion_command exe dest
       (generate_unique_path_pure (fs w) dest (PurePath.stem f) ".dng").1.1 f)
    (fs w) = (inr result, fs1) ->
  exists (r : conversion_result) (w' : World),
    process_file E dest exe total i f stats w = (Done (record stats r), w')
    /\ if path_exists fs1
            (generate_unique_path_pure (fs w) dest (PurePath.stem f) ".dng").1.2
       then copy_attempts (trace w') = copy_attempts (trace w)
       else exists copy_name : string,
           copy_attempts (trace w')
           = (copy_attempts (trace w) ++ [(f, dest // copy_name)])%list
           /\ path_exists fs1 (dest // copy_name) = false
           /\ PurePath.suffix_of copy_name = PurePath.suffix f
           /\ PurePath.suffix f <> ".dng".
Proof.
  intros Hraw Hrun.
  pose proof (process_file_cases E dest exe total i f stats w) as H.
  destruct (generate_unique_path_pure (fs w) dest (PurePath.stem f) ".dng")
    as [[dng_name dng_path] idx].
  simpl in *. destruct H as (r & w' & Hstep & _ & Hcase).
  rewrite Hrun in Hcase. exists r, w'. split; [exact Hstep|].
  destruct (path_exists fs1 dng_path); [tauto|].
  destruct (generate_unique_path_pure_spec fs1 dest (PurePath.stem f) (PurePath.suffix f))
    as (m & Hcopy & Hfree & _).
  cbv zeta in *. rewrite Hcopy in Hcase. destruct Hcase as (Hattempts & _).
  apply supported_suffix in Hraw as (Hne & Hdng).
  eexists. split; [exact Hattempts|]. split; [exact Hfree|]. split; [|exact Hdng].
  now apply candidate_keeps_suffix.
Qed.

(** X12: when [subprocess.run] itself raises, the file is counted as a
    failure and no copy is attempted. *)
Lemma no_copy_when_invocation_raises (E : Env) (dest : Path) (exe : string) (total i : nat)
    (f : Path) (stats : Stats) (w : World) (e : exn) (fs1 : FS) :
  converter E
    (conversion_command exe dest
       (generate_unique_path_pure (fs w) dest (PurePath.stem f) ".dng").1.1 f)
    (fs w) = (inl e, fs1) ->
  exists w' : World,
    process_file E dest exe total i f stats w = (Done (record stats Errored), w')
    /\ copy_attempts (trace w') = copy_attempts (trace w).
Proof.
  intros Hrun.
  pose proof (process_file_cases E dest exe total i f stats w) as H.
  destruct (generate_unique_path_pure (fs w) dest (PurePath.stem f) ".dng")
    as [[dng_name dng_path] idx].
  simpl in *. destruct H as (r & w' & Hstep & _ & Hcase).
  rewrite Hrun in Hcase. destruct Hcase as (-> & _ & Hcopies). eauto.
Qed.

(** ** Two raw files with one stem *)

Lemma candidate_name_inj (base ext : string) (j k : nat) :
  candidate_name base ext j = candidate_name base ext k -> j = k.
Proof.
  assert (Hlen : forall n, base +:+ ext <> base +:+ "_" +:+ Str.of_nat n +:+ ext).
  { intros n H. apply (f_equal String.length) in H.
    rewrite !string_app_length in H. simpl in H. lia. }
  destruct j as [|j], k as [|k]; simpl; intros H.
  - reflexivity.
  - now apply Hlen in H.
  - symmetry in H. now apply Hlen in H.
  - apply string_app_inv_head, string_app_inv_head, string_app_inv_tail in H.
    now apply of_nat_inj.
Qed.

(** C4, as amended: two raw files with one stem, converted one after the
    other; if the first conversion returns having produced its expected
    output file, the second conversion is asked for a different output name,
    so the two outputs do not collide; and that name is [stem_1.dng] when
    the destination held no [stem.dng] before the first conversion and holds
    no [stem_1.dng] after it. *)
Theorem same_stem_outputs_differ (E : Env) (dest : Path) (exe : string)
    (total i : nat) (f1 f2 : Path) (stats : Stats) (w : World)
    (result : CompletedProcess) (fs1 : FS) :
  PurePath.stem f2 = PurePath.stem f1 ->
  converter E
    (conversion_command exe dest
       (generate_unique_path_pure (fs w) dest (PurePath.stem f1) ".dng").1.1 f1)
    (fs w) = (inr result, fs1) ->
  path_exists fs1 (generate_unique_path_pure (fs w) dest (PurePath.stem f1) ".dng").1.2
  = true ->
  exists (stats' : Stats) (w' : World) (name2 : string),
    process_files E dest exe total i [f1; f2] stats w = (Done stats', w')
    /\ invocations (trace w')
       = (invocations (trace w)
            ++ [conversion_command exe dest
                  (generate_unique_path_pure (fs w) dest (PurePath.stem f1) ".dng").1.1 f1;
                conversion_command exe dest name2 f2])%list
    /\ name2 <> (generate_unique_path_pure (fs w) dest (PurePath.stem f1) ".dng").1.1
    /\ (path_exists (fs w) (dest // (PurePath.stem f1 +:+ ".dng")) = false ->
        path_exists fs1 (dest // (PurePath.stem f1 +:+ "_1.dng")) = false ->
        name2 = PurePath.stem f1 +:+ "_1.dng").
Proof.
  intros Hstem Hrun Hmade.
  pose proof (process_file_cases E dest exe total i f1 stats w) as H1.
  destruct (generate_unique_path_pure_spec (fs w) dest (PurePath.stem f1) ".dng")
    as (c1 & Hgen1 & Hfree1 & Hbusy1).
  cbv zeta in *. change (normalized_extension ".dng") with ".dng" in *.
  rewrite Hgen1 in *. simpl in Hrun, Hmade.
  destruct H1 as (r1 & w1 & Hstep1 & Hinv1 & Hcase1).
  rewrite Hrun, Hmade in Hcase1. destruct Hcase1 as (-> & Hfs1 & _).
  pose proof (process_file_cases E dest exe total (S i) f2 (record stats Converted) w1) as H2.
  rewrite Hstem, Hfs1 in H2.
  destruct (generate_unique_path_pure_spec fs1 dest (PurePath.stem f1) ".dng")
    as (c2 & Hgen2 & Hfree2 & Hbusy2).
  cbv zeta in *. change (normalized_extension ".dng") with ".dng" in *.
  rewrite Hgen2 in H2.
  destruct H2 as (r2 & w2 & Hstep2 & Hinv2 & _).
  exists (record (record stats Converted) r2), w2,
         (candidate_name (PurePath.stem f1) ".dng" c2).
  simpl. unfold bind. rewrite Hstep1, Hstep2. split; [reflexivity|].
  split; [rewrite Hinv2, Hinv1, <- app_assoc; reflexivity|].
  split.
  - intros Heq. apply candidate_name_inj in Heq. subst c2. congruence.
  - intros Hfree0 Hfree1'.
    destruct c2 as [|[|c2]].
    + destruct c1 as [|c1]; [simpl in *; congruence|].
      specialize (Hbusy1 0 ltac:(lia)). simpl in Hbusy1. congruence.
    + reflexivity.
    + specialize (Hbusy2 1 ltac:(lia)).
      change (candidate_name (PurePath.stem f1) ".dng" 1)
        with (PurePath.stem f1 +:+ "_1.dng") in Hbusy2. congruence.
Qed.

(** ** When [str(Path(s))] is [s] itself *)

Lemma join_split (s : string) : Str.join "/" (Str.split "/" s) = s.
Proof.
  unfold Str.join. induction s as [|a s IH]; [reflexivity|].
  simpl. destruct (Ascii.eqb_spec a "/") as [->|Ha].
  - simpl. destruct (Str.split "/" s) as [|h t] eqn:Hs; [now apply split_nonempty in Hs|].
    now rewrite IH.
  - destruct (Str.split "/" s) as [|h t] eqn:Hs; [now apply split_nonempty in Hs|].
    simpl in *. destruct t; [now rewrite IH|].
    rewrite string_app_cons. now rewrite IH.
Qed.

Lemma filter_proper (l : list string) :
  Forall PurePath.proper_part l -> filter PurePath.proper_part l = l.
Proof.
  induction 1 as [|x l Hx _ IH]; [reflexivity|].
  now rewrite filter_cons_True, IH.
Qed.

(** A relative path whose components are all non-empty and not ["."] is
    spelled as it was given. *)
Lemma to_string_of_string_relative (s : string) :
  Forall PurePath.proper_part (Str.split "/" s) ->
  PurePath.to_string (PurePath.of_string s) = s.
Proof.
  intros Hparts.
  assert (Hrel : PurePath.splitroot s = ("", s)).
  { destruct s as [|a s]; [reflexivity|]. simpl in Hparts.
    destruct (Ascii.eqb_spec a "/") as [->|Ha].
    - inversion Hparts as [|? ? [Hne _] _]. congruence.
    - unfold PurePath.splitroot.
      destruct a as [[] [] [] [] [] [] [] []]; try reflexivity; congruence. }
  unfold PurePath.of_string, PurePath.to_string. rewrite Hrel. simpl.
  rewrite (filter_proper _ Hparts), string_app_empty, join_split.
  destruct s; [|reflexivity].
  simpl in Hparts. inversion Hparts as [|? ? [Hne _] _]. congruence.
Qed.

(** So is such a path under the root. *)
Lemma to_string_of_string_absolute (s : string) :
  Forall PurePath.proper_part (Str.split "/" s) ->
  PurePath.to_string (PurePath.of_string (String "/" s)) = String "/" s.
Proof.
  intros Hparts.
  assert (Hroot : PurePath.splitroot (String "/" s) = ("/", s)).
  { destruct s as [|a s]; [reflexivity|]. simpl in Hparts.
    destruct (Ascii.eqb_spec a "/") as [->|Ha].
    - inversion Hparts as [|? ? [Hne _] _]. congruence.
    - unfold PurePath.splitroot.
      destruct a as [[] [] [] [] [] [] [] []]; try reflexivity; congruence. }
  unfold PurePath.of_string, PurePath.to_string. rewrite Hroot. simpl.
  rewrite (filter_proper _ Hparts), join_split. reflexivity.
Qed.

(** ** The converter locator *)

Lemma find_adobe_executable_default (E : Env) (w : World) :
  (custom <- ret (@None string) ;;
   match custom with
   | Some s => ret s
   | None =>
       let system_os := platform_system E in
       path <- (if bool_decide (system_os = "Windows") then
                  ret (PurePath.of_string WINDOWS_DEFAULT)
                else if bool_decide (system_os = "Darwin") then
                  ret (PurePath.of_string DARWIN_DEFAULT)
                else
                  sys_exit (ExitMessage ("Unsupported Operating System: " +:+ system_os))) ;;
       cur <- get_fs ;;
       if negb (path_exists cur path) then
         print ("CRITICAL ERROR: Adobe DNG Converter not found at: "
                +:+ PurePath.to_string path) ;;;
         print "Please install it or set the 'ADOBE_DNG_PATH' environment variable." ;;;
         sys_exit (ExitStatus 1)
       else ret (PurePath.to_string path)
   end) w
  = default_resolution E w.
Proof.
  unfold default_resolution, default_for. unfold_monad. unfold sys_exit. simpl.
  repeat case_bool_decide; try reflexivity.
  - destruct (path_exists (fs w) (PurePath.of_string WINDOWS_DEFAULT)); simpl;
      [reflexivity | now rewrite <- app_assoc].
  - destruct (path_exists (fs w) (PurePath.of_string DARWIN_DEFAULT)); simpl;
      [reflexivity | now rewrite <- app_assoc].
Qed.


(** C10: an override that names a path that does not exist is ignored in
    silence: the locator does what it does with the variable unset, which
    is the default resolution; nothing is printed about the override, and
    the only path a fatal diagnostic names is the default one. *)
Theorem missing_override_ignored (E : Env) (w : World) (v : string) :
  environ E "ADOBE_DNG_PATH" = Some v ->
  path_exists (fs w) (PurePath.of_string v) = false ->
  find_adobe_executable E w = find_adobe_executable (without_override E) w
  /\ find_adobe_executable E w = default_resolution E w.
Proof.
  intros Hset Hmissing.
  assert (Hdefault : find_adobe_executable E w = default_resolution E w).
  { rewrite <- find_adobe_executable_default. unfold find_adobe_executable.
    rewrite Hset. case_bool_decide; [|reflexivity].
    unfold bind at 1. unfold bind at 1. unfold get_fs at 1.
    now rewrite Hmissing. }
  split; [|exact Hdefault].
  rewrite Hdefault. symmetry.
  apply (find_adobe_executable_default (without_override E) w).
Qed.

(** ** Which errors stay inside a folder *)

Section Containment.

Context {A B : Type} (P : exn -> World -> Prop).

Lemma contained_ret (a : A) (w : World) : contained P (ret a) w.
Proof. exact I. Qed.

Lemma contained_bind (m : M A) (k : A -> M B) (w : World) :
  contained P m w ->
  (forall a w', m w = (Done a, w') -> contained P (k a) w') ->
  contained P (bind m k) w.
Proof.
  unfold contained, bind. intros Hm Hk.
  destruct (m w) as [[a|e|x] w'] eqn:Hrun; [|assumption..].
  now apply Hk.
Qed.

(** A handler for [Exception] contains whatever the body raises. *)
Lemma contained_try_except (Q : exn -> World -> Prop) (m : M A) (h : exn -> M A)
    (w : World) :
  contained Q m w ->
  (forall e w', m w = (Raise e, w') -> contained P (h e) w') ->
  contained P (try_except m h) w.
Proof.
  unfold contained, try_except. intros Hm Hh.
  destruct (m w) as [[a|e|x] w'] eqn:Hrun; [exact I | | assumption].
  now apply Hh.
Qed.

End Containment.

Lemma contained_emit (P : exn -> World -> Prop) (e : event) (w : World) :
  contained P (emit e) w.
Proof. exact I. Qed.

Lemma contained_done {A} (P : exn -> World -> Prop) (m : M A) (w : World) :
  (exists a w', m w = (Done a, w')) -> contained P m w.
Proof. intros (a & w' & H). unfold contained. now rewrite H. Qed.

Lemma mkdir_guarded (E : Env) (p : Path) (h : exn -> M bool) (w : World) :
  (forall e w', contained (fun _ _ => False) (h e) w') ->
  contained (fun _ _ => False) (try_except (mkdir_exist_ok E p ;;; ret true) h) w.
Proof.
  intros Hh. apply (contained_try_except _ (fun _ _ => True)); [|intros; apply Hh].
  unfold contained, mkdir_exist_ok. unfold_monad.
  destruct (fs w !! p) as [[]|]; simpl; [exact I..|].
  destruct (mkdir_error E p (fs w)); exact I.
Qed.

Lemma setup_logger_contained (E : Env) (dest : Path) (w : World) :
  contained (fun _ _ => False) (setup_logger E dest) w.
Proof.
  unfold setup_logger.
  apply contained_bind; [exact I|]. intros hs w1 _.
  apply contained_bind; [destruct hs; exact I|]. intros [] w2 _.
  apply contained_bind.
  - apply (contained_try_except _ (fun _ _ => True)).
    + unfold contained, open_FileHandler, get_handlers, set_handlers. unfold_monad.
      destruct (fs w2 !! (dest // LOG_FILENAME)) as [[]|]; simpl;
        try exact I; destruct (open_error E _ _); exact I.
    + intros e w3 _. exact I.
  - intros [] w3 _; exact I.
Qed.

Lemma iterdir_contained (E : Env) (p : Path) (w : World) :
  contained (listing_error E) (iterdir E p) w.
Proof.
  unfold contained, iterdir, listing_error. unfold_monad.
  destruct (scandir E p (fs w)) eqn:Hls; simpl; eauto.
Qed.

(** A folder is processed to the end whatever directory creation, the log
    file, the converter and the copy do; the one error that leaves
    [process_single_folder] is one raised by the directory listing. *)
Lemma process_single_folder_contained (E : Env) (source exe : string) (w : World) :
  contained (listing_error E) (process_single_folder E source exe) w.
Proof.
  unfold process_single_folder.
  apply contained_bind; [exact I|]. intros cur w1 _.
  destruct (_ || _); [exact I|].
  apply contained_bind.
  - apply contained_done.
    pose proof (mkdir_guarded E (resolve E (PurePath.of_string source) // OUTPUT_DIR_NAME)
                  (fun e =>
                     print ("CRITICAL ERROR: Could not create output directory at "
                            +:+ PurePath.to_string (resolve E (PurePath.of_string source))
                            +:+ ". Error: " +:+ exn_msg e) ;;; ret false) w1
                  (fun _ _ => I)) as H.
    unfold contained in H. destruct (try_except _ _ w1) as [[a|e|x] w']; [eauto | easy..].
  - intros created w2 _. destruct created; simpl; [|exact I].
    apply contained_bind.
    + pose proof (setup_logger_contained E (resolve E (PurePath.of_string source) // OUTPUT_DIR_NAME) w2) as H.
      unfold contained in *. destruct (setup_logger _ _ w2) as [[a|e|x] w']; easy.
    + intros ok w3 _. destruct ok; simpl; [|exact I].
      apply contained_bind; [exact I|]. intros _ w4 _.
      apply contained_bind; [exact I|]. intros _ w5 _.
      apply contained_bind; [apply iterdir_contained|]. intros children w6 _.
      apply contained_bind; [exact I|]. intros cur' w7 _.
      destruct (List.filter _ _) as [|f rest] eqn:Hraw; [exact I|].
      apply contained_bind; [exact I|]. intros _ w8 _.
      apply contained_bind.
      * apply contained_done.
        destruct (process_files_tally E (resolve E (PurePath.of_string source) // OUTPUT_DIR_NAME)
                    exe (length (f :: rest)) 1 (f :: rest) (mkStats 0 0 0) w8)
          as (rs & w' & Hrun & _).
        eauto.
      * intros stats w9 _.
        apply contained_bind; [exact I|]. intros _ w10 _.
        apply contained_bind; [exact I|]. intros _ w11 _. exact I.
Qed.

Lemma process_folders_contained (E : Env) (exe : string) (total i : nat)
    (folders : list string) (w : World) :
  contained (listing_error E) (process_folders E exe total i folders) w.
Proof.
  revert i w. induction folders as [|folder rest IH]; intros i w; [exact I|].
  simpl. apply contained_bind; [exact I|]. intros _ w1 _.
  apply contained_bind; [apply process_single_folder_contained|]. intros _ w2 _.
  apply IH.
Qed.

Lemma contained_weaken {A} (P Q : exn -> World -> Prop) (m : M A) (w : World) :
  (forall e w', P e w' -> Q e w') -> contained P m w -> contained Q m w.
Proof.
  unfold contained. intros HPQ. destruct (m w) as [[a|e|x] w']; auto.
Qed.

Lemma open_readlines_contained (E : Env) (p : Path) (w : World) :
  contained (reading_error E p) (open_readlines E p) w.
Proof.
  unfold contained, reading_error, open_readlines. unfold_monad.
  destruct (fs w !! p) as [[]|] eqn:Hp; simpl; rewrite ?Hp; simpl; try reflexivity.
  destruct (readlines E p (fs w)) eqn:Hr; simpl; rewrite ?Hp, ?Hr; reflexivity.
Qed.

(** Past the pre-checks (the list file exists, the converter is found),
    among the errors the model raises only one of reading the list file or
    of a directory listing leaves [main]; those of directory creation, log
    set-up, the converter subprocess and the copy are contained. *)
Lemma main_contained (E : Env) (list_file exe : string) (w w1 : World) :
  path_exists (fs w) (PurePath.of_string list_file) = true ->
  find_adobe_executable E w = (Done exe, w1) ->
  contained (fun e w' => listing_error E e w'
                         \/ reading_error E (PurePath.of_string list_file) e w')
            (main E list_file) w.
Proof.
  intros Hlist Hexe. unfold main.
  apply contained_bind; [exact I|]. intros cur w' [= <- <-].
  rewrite Hlist. simpl.
  apply contained_bind; [unfold contained; now rewrite Hexe|]. intros exe' w2 _.
  apply contained_bind; [exact I|]. intros _ w3 _.
  apply contained_bind.
  { eapply contained_weaken; [|apply open_readlines_contained]. auto. }
  intros lines w4 _.
  apply contained_bind; [exact I|]. intros _ w5 _.
  apply contained_bind; [exact I|]. intros _ w6 _.
  apply contained_bind.
  { eapply contained_weaken; [|apply process_folders_contained]. auto. }
  intros _ w7 _. exact I.
Qed.

(** ** The script on the photo shoot *)

Section Runs.

Import Scenario.

Example path_spelling :
  PurePath.to_string (PurePath.of_string "./tools//dng/") = "tools/dng"
  /\ PurePath.to_string (PurePath.of_string "/photos/day1") = "/photos/day1"
  /\ PurePath.to_string (PurePath.of_string WINDOWS_DEFAULT) = WINDOWS_DEFAULT
  /\ PurePath.to_string dest = "/photos/day1/DNG"
  /\ PurePath.to_string (dest // "IMG_0001_1.dng") = "/photos/day1/DNG/IMG_0001_1.dng".
Proof. vm_compute. repeat split; reflexivity. Qed.

Example stem_and_suffix :
  PurePath.stem cr2 = "IMG_0001" /\ PurePath.suffix cr2 = ".cr2"
  /\ PurePath.suffix_of "IMG.0001.CR2" = ".CR2" /\ PurePath.stem_of "IMG.0001.CR2" = "IMG.0001"
  /\ PurePath.suffix_of ".cr2" = "" /\ PurePath.suffix_of "raw." = ""
  /\ Str.lower ".Cr2" = ".cr2" /\ Str.strip ("  /photos/day2  " +:+ nl) = "/photos/day2".
Proof. vm_compute. repeat split; reflexivity. Qed.

Example is_raw_file_examples :
  is_raw_file disk cr2 = true /\ is_raw_file disk other = true
  /\ is_raw_file disk (day1 // "notes.txt") = false
  /\ is_raw_file disk (day1 // "missing.cr2") = false.
Proof. vm_compute. repeat split; reflexivity. Qed.

(** An existing [IMG_0001.dng] sends the next conversion to [IMG_0001_1.dng]. *)
Example existing_output_collides :
  generate_unique_path_pure (<[dest // "IMG_0001.dng" := RegularFile]> disk)
                            dest "IMG_0001" "dng"
  = ("IMG_0001_1.dng", dest // "IMG_0001_1.dng", 1).
Proof. vm_compute. reflexivity. Qed.

Example first_name_free :
  generate_unique_path_pure disk dest "IMG_0001" ".dng"
  = ("IMG_0001.dng", dest // "IMG_0001.dng", 0).
Proof. vm_compute. reflexivity. Qed.

(** With a converter that works, the two files of the first folder and
    the file of the second are converted. *)
Example batch_converts :
  (main (env None converter_creating_output listing) list_file world).1 = Done tt
  /\ invocations (trace (main (env None converter_creating_output listing)
                              list_file world).2)
     = [conversion_command exe dest "IMG_0001.dng" cr2;
        conversion_command exe dest "IMG_0001_1.dng" cr3;
        conversion_command exe (day2 // "DNG") "IMG_0002.dng" other]
  /\ copy_attempts (trace (main (env None converter_creating_output listing)
                                list_file world).2) = [].
Proof. vm_compute. repeat split; reflexivity. Qed.

(** C1: the code at the failing input.  The first folder of the list can
    be entered and written to but not listed: the listing error leaves
    [process_single_folder] and [main], the batch stops there, and the
    second folder, which the same batch converts when the first can be
    listed, is never touched. *)
Theorem listing_error_aborts_batch :
  (main (env None converter_creating_output listing_unreadable) list_file world).1
  = Raise (Exception "[Errno 13] Permission denied")
  /\ invocations (trace (main (env None converter_creating_output listing_unreadable)
                              list_file world).2) = []
  /\ path_exists (fs (main (env None converter_creating_output listing_unreadable)
                           list_file world).2) (day2 // "DNG") = false
  /\ path_exists (fs (main (env None converter_creating_output listing)
                           list_file world).2) (day2 // "DNG" // "IMG_0002.dng") = true.
Proof. vm_compute. repeat split; reflexivity. Qed.

(** C4, a counterexample to the claim as stated: when the converter
    produces no output for [IMG_0001.cr2], the conversion of
    [IMG_0001.cr3] is asked for [IMG_0001.dng] again, without a suffix. *)
Lemma same_stem_same_name_without_output :
  invocations (trace (process_single_folder (env None converter_without_output listing)
                                            "/photos/day1" exe world).2)
  = [conversion_command exe dest "IMG_0001.dng" cr2;
     conversion_command exe dest "IMG_0001.dng" cr3].
Proof. vm_compute. reflexivity. Qed.

(** C5, a counterexample to the claim as stated: the converter cannot be
    started, so it produces no output file, and no copy is attempted; the
    file is counted as a failure. *)
Lemma no_copy_when_converter_cannot_start :
  (process_file (env None converter_not_launched listing) (day2 // "DNG") exe 1 1
                other (mkStats 0 0 0) world).1 = Done (mkStats 0 0 1)
  /\ invocations (trace (process_file (env None converter_not_launched listing)
                                      (day2 // "DNG") exe 1 1 other (mkStats 0 0 0)
                                      world).2)
     = [conversion_command exe (day2 // "DNG") "IMG_0002.dng" other]
  /\ path_exists (fs (process_file (env None converter_not_launched listing)
                                   (day2 // "DNG") exe 1 1 other (mkStats 0 0 0)
                                   world).2) (day2 // "DNG" // "IMG_0002.dng") = false
  /\ copy_attempts (trace (process_file (env None converter_not_launched listing)
                                        (day2 // "DNG") exe 1 1 other (mkStats 0 0 0)
                                        world).2) = [].
Proof. vm_compute. repeat split; reflexivity. Qed.

(** C6: the code at the failing input.  The override [./dng] names a
    converter in the working directory, and that file exists.  The claim
    has the locator use the value verbatim, [./dng]; the code returns
    [dng], a name without separator. *)
Theorem dot_slash_override_loses_prefix :
  path_exists (<[PurePath.of_string "dng" := RegularFile]> disk)
              (PurePath.of_string "./dng") = true
  /\ (locate_verbatim (env (Some "./dng") converter_creating_output listing)
                      (mkWorld (<[PurePath.of_string "dng" := RegularFile]> disk) [] [])).1
     = Done "./dng"
  /\ (find_adobe_executable (env (Some "./dng") converter_creating_output listing)
                            (mkWorld (<[PurePath.of_string "dng" := RegularFile]> disk)
                                     [] [])).1
     = Done "dng".
Proof. vm_compute. repeat split; reflexivity. Qed.

(** An empty override is not used ([if env_path:]), although [Path("")] is
    the working directory, which exists. *)
Example empty_override_not_used :
  path_exists disk (PurePath.of_string "") = true
  /\ (find_adobe_executable (env (Some "") converter_creating_output listing) world).1
     = Done DARWIN_DEFAULT.
Proof. vm_compute. repeat split; reflexivity. Qed.

Example strip_white_space :
  Str.strip (String (ascii_of_nat 194) (String (ascii_of_nat 160) " /photos/day1")
             +:+ String (ascii_of_nat 226) (String (ascii_of_nat 128)
                   (String (ascii_of_nat 131) (String (ascii_of_nat 28) nl))))
  = "/photos/day1"
  /\ Str.strip (String (ascii_of_nat 226) (String (ascii_of_nat 128)
                  (String (ascii_of_nat 139) "x")))
     = String (ascii_of_nat 226) (String (ascii_of_nat 128)
                (String (ascii_of_nat 139) "x"))
  /\ Str.strip (" " +:+ nl) = "".
Proof. vm_compute. repeat split; reflexivity. Qed.

(** C2 on the shoot: the converter writes [IMG_0001.dng]; the file is
    converted, and it is so as well when the exit status reads 1. *)
Lemma converted_iff_output_exists_shoot :
  exists (r : conversion_result) (w' : World),
    process_file (env None converter_creating_output listing) dest exe 2 1 cr2
                 (mkStats 0 0 0) world = (Done (record (mkStats 0 0 0) r), w')
    /\ (r = Converted
        <-> path_exists (<[dest // "IMG_0001.dng" := RegularFile]> disk)
              (generate_unique_path_pure (fs world) dest (PurePath.stem cr2) ".dng").1.2
            = true)
    /\ process_file (with_exit_status (fun _ _ _ => 1%Z)
                       (env None converter_creating_output listing))
                    dest exe 2 1 cr2 (mkStats 0 0 0) world
       = (Done (record (mkStats 0 0 0) r), w').
Proof.
  apply (converted_iff_output_exists (fun _ _ _ => 1%Z)
           (env None converter_creating_output listing) dest exe 2 1 cr2
           (mkStats 0 0 0) world (mkCompleted 0 "" "")).
  change (fs world) with disk. change (PurePath.stem cr2) with "IMG_0001".
  rewrite first_name_free. reflexivity.
Defined.

(** C4 on the shoot: the converter writes [IMG_0001.dng] for the first
    file, and the second is asked for [IMG_0001_1.dng]. *)
Lemma same_stem_outputs_differ_shoot :
  exists (stats' : Stats) (w' : World) (name2 : string),
    process_files (env None converter_creating_output listing) dest exe 2 1 [cr2; cr3]
                  (mkStats 0 0 0) world = (Done stats', w')
    /\ invocations (trace w')
       = (invocations (trace world)
            ++ [conversion_command exe dest
                  (generate_unique_path_pure (fs world) dest (PurePath.stem cr2) ".dng").1.1
                  cr2;
                conversion_command exe dest name2 cr3])%list
    /\ name2 <> (generate_unique_path_pure (fs world) dest (PurePath.stem cr2) ".dng").1.1
    /\ (path_exists (fs world) (dest // (PurePath.stem cr2 +:+ ".dng")) = false ->
        path_exists (<[dest // "IMG_0001.dng" := RegularFile]> disk)
                    (dest // (PurePath.stem cr2 +:+ "_1.dng")) = false ->
        name2 = PurePath.stem cr2 +:+ "_1.dng").
Proof.
  apply (same_stem_outputs_differ (env None converter_creating_output listing)
           dest exe 2 1 cr2 cr3 (mkStats 0 0 0) world (mkCompleted 0 "" "")).
  - reflexivity.
  - change (fs world) with disk. change (PurePath.stem cr2) with "IMG_0001".
    rewrite first_name_free. reflexivity.
  - change (fs world) with disk. change (PurePath.stem cr2) with "IMG_0001".
    rewrite first_name_free. apply path_exists_insert_eq.
Defined.

(** C5 on the shoot: the converter returns without output, and the one
    copy attempt keeps the extension [.cr2]. *)
Lemma fallback_copy_once_shoot :
  exists (r : conversion_result) (w' : World),
    process_file (env None converter_without_output listing) dest exe 2 1 cr2
                 (mkStats 0 0 0) world = (Done (record (mkStats 0 0 0) r), w')
    /\ if path_exists disk
            (generate_unique_path_pure (fs world) dest (PurePath.stem cr2) ".dng").1.2
       then copy_attempts (trace w') = copy_attempts (trace world)
       else exists copy_name : string,
           copy_attempts (trace w')
           = (copy_attempts (trace world) ++ [(cr2, dest // copy_name)])%list
           /\ path_exists disk (dest // copy_name) = false
           /\ PurePath.suffix_of copy_name = PurePath.suffix cr2
           /\ PurePath.suffix cr2 <> ".dng".
Proof.
  apply (fallback_copy_once (env None converter_without_output listing) dest exe 2 1
           cr2 (mkStats 0 0 0) world
           (mkCompleted 1 "" ("GPU not available" +:+ nl +:+ "cannot read file" +:+ nl))).
  - apply (bool_decide_unpack _). vm_compute. exact I.
  - reflexivity.
Defined.

(** C10 on the shoot: the override names a path that does not exist. *)
Lemma missing_override_ignored_shoot :
  find_adobe_executable (env (Some "/opt/adobe/dng") converter_creating_output listing)
                        world
  = find_adobe_executable
      (without_override (env (Some "/opt/adobe/dng") converter_creating_output listing))
      world
  /\ find_adobe_executable (env (Some "/opt/adobe/dng") converter_creating_output listing)
                           world
     = default_resolution (env (Some "/opt/adobe/dng") converter_creating_output listing)
                          world.
Proof.
  apply (missing_override_ignored
           (env (Some "/opt/adobe/dng") converter_creating_output listing)
           world "/opt/adobe/dng").
  - vm_compute. reflexivity.
  - vm_compute. reflexivity.
Defined.

End Runs.

(** * Further properties of the script *)

(** ** Folders that are skipped or abandoned *)

(** X1: a listed folder that is not an existing directory is skipped:
    [process_single_folder] prints the SKIPPING line and changes nothing
    else, and the batch goes on with the next folder of the list. *)
Theorem invalid_folder_is_skipped (E : Env) (exe folder : string) (rest : list string)
    (total i : nat) (w : World) :
  path_is_dir (fs w) (resolve E (PurePath.of_string folder)) = false ->
  process_single_folder E folder exe w
  = (Done tt,
     mkWorld (fs w) (handlers w)
             (trace w ++ [skipping_line (resolve E (PurePath.of_string folder))]))
  /\ process_folders E exe total i (folder :: rest) w
     = process_folders E exe total (S i) rest
         (mkWorld (fs w) (handlers w)
            (trace w ++ [folder_banner total i folder;
                         skipping_line (resolve E (PurePath.of_string folder))])).
Proof.
  intros Hdir.
  assert (Hskip : forall w0 : World, fs w0 = fs w ->
            process_single_folder E folder exe w0
            = (Done tt, mkWorld (fs w0) (handlers w0)
                 (trace w0 ++ [skipping_line (resolve E (PurePath.of_string folder))]))).
  { intros w0 Hfs. rewrite <- Hfs in Hdir.
    unfold process_single_folder. unfold_monad. simpl.
    rewrite Hdir, orb_true_r. reflexivity. }
  split; [now apply Hskip|].
  simpl. unfold bind at 1. unfold print at 1, emit at 1.
  unfold bind at 1. rewrite Hskip by reflexivity. simpl.
  now rewrite <- app_assoc.
Qed.

(** X2: when the output directory cannot be created (the name [DNG] is
    taken by a regular file, or [mkdir] fails), the folder is abandoned
    with one CRITICAL ERROR line: no log file is opened, the logging
    handlers stay as they were, and nothing is converted or copied. *)
Theorem mkdir_failure_abandons_folder (E : Env) (exe folder : string) (w : World) :
  path_is_dir (fs w) (resolve E (PurePath.of_string folder)) = true ->
  mkdir_succeeds E (resolve E (PurePath.of_string folder) // OUTPUT_DIR_NAME) (fs w)
  = false ->
  exists e : exn,
    process_single_folder E folder exe w
    = (Done tt,
       mkWorld (fs w) (handlers w)
         (trace w
            ++ [Print ("CRITICAL ERROR: Could not create output directory at "
                       +:+ PurePath.to_string (resolve E (PurePath.of_string folder))
                       +:+ ". Error: " +:+ exn_msg e)]))
    /\ (fs w !! (resolve E (PurePath.of_string folder) // OUTPUT_DIR_NAME)
        = Some RegularFile
        \/ mkdir_error E (resolve E (PurePath.of_string folder) // OUTPUT_DIR_NAME) (fs w)
           = Some e).
Proof.
  intros Hdir Hmk. unfold mkdir_succeeds in Hmk.
  assert (Hex : path_exists (fs w) (resolve E (PurePath.of_string folder)) = true).
  { unfold path_is_dir, path_exists in *.
    destruct (fs w !! resolve E (PurePath.of_string folder)) as [[]|]; congruence. }
  unfold process_single_folder, mkdir_exist_ok. unfold_monad. simpl.
  rewrite Hex, Hdir. simpl.
  destruct (fs w !! (resolve E (PurePath.of_string folder) // OUTPUT_DIR_NAME))
    as [[]|] eqn:Hdest; simpl; [|discriminate|].
  - exists (Exception "FileExistsError"). auto.
  - destruct (mkdir_error E _ (fs w)) as [e|] eqn:Herr; [|discriminate].
    simpl. exists e. auto.
Qed.

(** ** [setup_logger] *)

(** X3: [setup_logger] never raises.  When it returns [True] the log file
    [conversion_log.txt] of the folder exists (created or truncated) and the
    handlers are exactly that file and the console, whatever handlers the
    previous folder left; when it returns [False] no handler is left at all,
    the file system is untouched and one CRITICAL ERROR line is printed.  It
    returns [True] exactly when the log file can be opened. *)
Theorem setup_logger_resets_handlers (E : Env) (dest : Path) (w : World) :
  exists (ok : bool) (w' : World),
    setup_logger E dest w = (Done ok, w')
    /\ ok = open_succeeds E (dest // LOG_FILENAME) (fs w)
    /\ if ok then
         handlers w' = [FileHandler (dest // LOG_FILENAME); StreamHandler]
         /\ fs w' = <[dest // LOG_FILENAME := RegularFile]> (fs w)
         /\ trace w' = trace w
       else
         handlers w' = [] /\ fs w' = fs w
         /\ exists e : exn,
             trace w'
             = (trace w ++ [Print ("CRITICAL ERROR: Could not create log file in "
                                   +:+ PurePath.to_string dest +:+ ": " +:+ exn_msg e)])%list.
Proof.
  unfold setup_logger, open_FileHandler, open_succeeds, get_handlers, set_handlers.
  unfold_monad.
  destruct (handlers w) as [|h hs] eqn:Hh; simpl;
    (destruct (fs w !! (dest // LOG_FILENAME)) as [[]|] eqn:Hlog; simpl;
     [ destruct (open_error E (dest // LOG_FILENAME) (fs w)) as [e|] eqn:Herr; simpl
     | | destruct (open_error E (dest // LOG_FILENAME) (fs w)) as [e|] eqn:Herr; simpl ]);
    eexists; eexists; (split; [reflexivity|]); simpl; rewrite ?Hh;
    (split; [reflexivity|]); repeat split; try reflexivity;
    try (eexists; reflexivity);
    exists (Exception "IsADirectoryError"); reflexivity.
Qed.

(** ** The per-file loop, seen from outside *)

(** One run of the loop body appends to the trace and leaves the logging
    handlers alone. *)
Lemma process_file_appends (E : Env) (dest : Path) (exe : string) (total i : nat)
    (f : Path) (stats : Stats) (w : World) :
  exists (r : conversion_result) (w' : World) (new : list event),
    process_file E dest exe total i f stats w = (Done (record stats r), w')
    /\ trace w' = (trace w ++ new)%list
    /\ handlers w' = handlers w.
Proof.
  unfold process_file. unfold_monad.
  destruct (generate_unique_path_pure (fs w) dest (PurePath.stem f) ".dng")
    as [[dng_name dng_path] idx].
  destruct (0 <? idx)%nat; simpl;
    (destruct (converter E _ (fs w)) as [[e|result] fs1]; simpl;
     [ exists Errored; do 2 eexists; split; [reflexivity|]; simpl;
       rewrite <- ?app_assoc; split; reflexivity | ]);
    (destruct (path_exists fs1 dng_path);
     [ exists Converted; do 2 eexists; split; [reflexivity|]; simpl;
       rewrite <- ?app_assoc; split; reflexivity | ]);
    (destruct (List.filter _ _); simpl;
     destruct (generate_unique_path_pure fs1 dest (PurePath.stem f) (PurePath.suffix f))
       as [[copy_name copy_dest] copy_idx]; simpl;
     (destruct (fs1 !! f) as [[]|]; simpl;
      [ | exists Errored; do 2 eexists; split; [reflexivity|]; simpl;
          rewrite <- ?app_assoc; split; reflexivity ..]);
     (destruct (copy_error E f copy_dest fs1); simpl;
      [ destruct (copy_partial E f copy_dest fs1); simpl;
        exists Errored; do 2 eexists; (split; [reflexivity|]); simpl;
        rewrite <- ?app_assoc; split; reflexivity | ]);
     destruct (0 <? copy_idx)%nat; simpl;
     exists Copied; do 2 eexists; (split; [reflexivity|]); simpl;
     rewrite <- ?app_assoc; split; reflexivity).
Qed.

(** X4: the loop invokes the converter exactly once per raw file, in
    enumeration order and with no retry: each command line is the
    executable, [-lossy -fl], [-d] and the destination, [-o] and an output
    name [stem.dng] or [stem_<k>.dng] of that file's stem, and the raw file
    as last argument. *)
Theorem one_invocation_per_file (E : Env) (dest : Path) (exe : string) (total i : nat)
    (raw_files : list Path) (stats : Stats) (w : World) :
  exists counts : list nat,
    length counts = length raw_files
    /\ invocations (trace (process_files E dest exe total i raw_files stats w).2)
       = (invocations (trace w)
            ++ zip_with (fun k f => conversion_command exe dest
                                      (candidate_name (PurePath.stem f) ".dng" k) f)
                        counts raw_files)%list.
Proof.
  revert i stats w. induction raw_files as [|f rest IH]; intros i stats w.
  - exists []. simpl. now rewrite app_nil_r.
  - pose proof (process_file_cases E dest exe total i f stats w) as Hstep.
    destruct (generate_unique_path_pure_spec (fs w) dest (PurePath.stem f) ".dng")
      as (k & Hgen & _).
    cbv zeta in Hgen. change (normalized_extension ".dng") with ".dng" in Hgen.
    rewrite Hgen in Hstep. destruct Hstep as (r & w1 & Hrun & Hinv & _).
    destruct (IH (S i) (record stats r) w1) as (ks & Hlen & Hrest).
    exists (k :: ks). split; [simpl; now rewrite Hlen|].
    simpl. unfold bind. rewrite Hrun, Hrest, Hinv, <- app_assoc. reflexivity.
Qed.

Lemma process_file_copies (E : Env) (dest : Path) (exe : string) (total i : nat)
    (f : Path) (stats : Stats) (w : World) :
  exists (r : conversion_result) (w' : World) (attempts : list (Path * Path)),
    process_file E dest exe total i f stats w = (Done (record stats r), w')
    /\ copy_attempts (trace w') = (copy_attempts (trace w) ++ attempts)%list
    /\ (attempts = [] /\ r <> Copied
        \/ exists k,
            attempts = [(f, dest // candidate_name (PurePath.stem f)
                                      (normalized_extension (PurePath.suffix f)) k)]).
Proof.
  pose proof (process_file_cases E dest exe total i f stats w) as Hstep.
  destruct (generate_unique_path_pure (fs w) dest (PurePath.stem f) ".dng")
    as [[dng_name dng_path] idx].
  destruct Hstep as (r & w' & Hrun & _ & Hcase).
  destruct (converter E _ (fs w)) as [[e|result] fs1].
  - destruct Hcase as (-> & _ & Hcopies).
    exists Errored, w', []. rewrite app_nil_r. split; [exact Hrun|]. split; [exact Hcopies|].
    left. split; [reflexivity | discriminate].
  - destruct (path_exists fs1 dng_path).
    + destruct Hcase as (-> & _ & Hcopies).
      exists Converted, w', []. rewrite app_nil_r. split; [exact Hrun|].
      split; [exact Hcopies|]. left. split; [reflexivity | discriminate].
    + destruct (generate_unique_path_pure_spec fs1 dest (PurePath.stem f) (PurePath.suffix f))
        as (k & Hgen & _).
      cbv zeta in Hgen. rewrite Hgen in Hcase. destruct Hcase as (Hcopies & _).
      exists r, w'. eexists. split; [exact Hrun|]. split; [exact Hcopies|].
      right. exists k. reflexivity.
Qed.

(** X5: the only files the loop tries to copy are raw files of the list,
    in enumeration order and at most once each; every copy goes to a name
    [stem<suffix>] or [stem_<k><suffix>] of that file under the destination;
    and no file is counted as copied without such an attempt. *)
Theorem copies_are_of_raw_files (E : Env) (dest : Path) (exe : string) (total i : nat)
    (raw_files : list Path) (stats : Stats) (w : World) :
  exists (stats' : Stats) (w' : World) (attempts : list (Path * Path)),
    process_files E dest exe total i raw_files stats w = (Done stats', w')
    /\ copy_attempts (trace w') = (copy_attempts (trace w) ++ attempts)%list
    /\ sublist (attempts.*1) raw_files
    /\ Forall (fun a => exists k,
                   a.2 = dest // candidate_name (PurePath.stem a.1)
                                   (normalized_extension (PurePath.suffix a.1)) k)
              attempts
    /\ copied stats' <= copied stats + length attempts.
Proof.
  revert i stats w. induction raw_files as [|f rest IH]; intros i stats w.
  - exists stats, w, []. simpl. rewrite app_nil_r.
    repeat split; [constructor | constructor | lia].
  - destruct (process_file_copies E dest exe total i f stats w)
      as (r & w1 & att & Hrun & Hcopies & Hatt).
    destruct (IH (S i) (record stats r) w1) as (stats' & w' & atts & Hrest & Hcs & Hsub & Hall & Hle).
    exists stats', w', (att ++ atts)%list. simpl. unfold bind. rewrite Hrun.
    split; [exact Hrest|]. split; [now rewrite Hcs, Hcopies, <- app_assoc|].
    destruct Hatt as [(-> & Hr) | (k & ->)]; simpl.
    + split; [now apply sublist_cons|]. split; [exact Hall|].
      destruct r; simpl in Hle; [lia | congruence | lia].
    + split; [now apply sublist_skip|]. split; [constructor; [now exists k | exact Hall]|].
      destruct r; simpl in Hle; lia.
Qed.


(** X7: when the converter returns and its expected output is missing, the
    result is decided by the copy alone: the file is counted as copied if
    the raw file is still a regular file and the copy succeeds, and as a
    failure otherwise.  The file system is then as the converter left it,
    plus the copy's destination (the name that was free) whenever the copy
    wrote it: when it succeeded, and also when it failed after creating it. *)
Theorem fallback_decided_by_copy (E : Env) (dest : Path) (exe : string) (total i : nat)
    (f : Path) (stats : Stats) (w : World) (result : CompletedProcess) (fs1 : FS) :
  converter E
    (conversion_command exe dest
       (generate_unique_path_pure (fs w) dest (PurePath.stem f) ".dng").1.1 f)
    (fs w) = (inr result, fs1) ->
  path_exists fs1 (generate_unique_path_pure (fs w) dest (PurePath.stem f) ".dng").1.2
  = false ->
  exists w' : World,
    process_file E dest exe total i f stats w
    = (Done (record stats
               (if copy_succeeds E f
                     (generate_unique_path_pure fs1 dest (PurePath.stem f)
                                                (PurePath.suffix f)).1.2 fs1
                then Copied else Errored)), w')
    /\ fs w'
       = if copy_writes E f
              (generate_unique_path_pure fs1 dest (PurePath.stem f)
                                         (PurePath.suffix f)).1.2 fs1
         then <[(generate_unique_path_pure fs1 dest (PurePath.stem f)
                                           (PurePath.suffix f)).1.2 := RegularFile]> fs1
         else fs1.
Proof.
  unfold process_file, conversion_command, copy_succeeds, copy_writes. unfold_monad.
  destruct (generate_unique_path_pure (fs w) dest (PurePath.stem f) ".dng")
    as [[dng_name dng_path] idx].
  simpl. intros Hrun Hmissing.
  destruct (0 <? idx)%nat; simpl; rewrite Hrun; simpl; rewrite Hmissing;
    (destruct (List.filter _ _); simpl;
     destruct (generate_unique_path_pure fs1 dest (PurePath.stem f) (PurePath.suffix f))
       as [[copy_name copy_dest] copy_idx]; simpl;
     (destruct (fs1 !! f) as [[]|]; simpl; [ | eexists; split; reflexivity ..]);
     (destruct (copy_error E f copy_dest fs1); simpl;
      [destruct (copy_partial E f copy_dest fs1); simpl; eexists; split; reflexivity|]);
     destruct (0 <? copy_idx)%nat; simpl; eexists; split; reflexivity).
Qed.

(** ** A folder from start to end *)

Lemma bind_done {A B} (m : M A) (k : A -> M B) (w w' : World) (a : A) :
  m w = (Done a, w') -> bind m k w = k a w'.
Proof. intros H. unfold bind. now rewrite H. Qed.

Lemma mkdir_guarded_done (E : Env) (p : Path) (h : exn -> M bool) (w : World) :
  mkdir_succeeds E p (fs w) = true ->
  try_except (mkdir_exist_ok E p ;;; ret true) h w
  = (Done true, mkWorld (after_mkdir p (fs w)) (handlers w) (trace w)).
Proof.
  unfold mkdir_succeeds, after_mkdir, mkdir_exist_ok. unfold_monad.
  destruct (fs w !! p) as [[]|]; simpl; [discriminate | now destruct w |].
  destruct (mkdir_error E p (fs w)); [discriminate | reflexivity].
Qed.

Lemma setup_logger_done (E : Env) (dest : Path) (w : World) :
  open_succeeds E (dest // LOG_FILENAME) (fs w) = true ->
  setup_logger E dest w
  = (Done true,
     mkWorld (<[dest // LOG_FILENAME := RegularFile]> (fs w))
             [FileHandler (dest // LOG_FILENAME); StreamHandler] (trace w)).
Proof.
  unfold setup_logger, open_FileHandler, open_succeeds, get_handlers, set_handlers.
  unfold_monad.
  destruct (handlers w) as [|h hs] eqn:Hh; simpl;
    (destruct (fs w !! (dest // LOG_FILENAME)) as [[]|]; simpl;
     [ destruct (open_error E (dest // LOG_FILENAME) (fs w)); simpl
     | | destruct (open_error E (dest // LOG_FILENAME) (fs w)); simpl ]);
    intros; try discriminate; rewrite ?Hh; reflexivity.
Qed.

Lemma process_files_appends (E : Env) (dest : Path) (exe : string) (total i : nat)
    (raw_files : list Path) (stats : Stats) (w : World) :
  exists (results : list conversion_result) (w' : World) (new : list event),
    process_files E dest exe total i raw_files stats w = (Done (tally stats results), w')
    /\ length results = length raw_files
    /\ trace w' = (trace w ++ new)%list
    /\ handlers w' = handlers w
    /\ length (invocations new) = length raw_files.
Proof.
  revert i stats w. induction raw_files as [|f rest IH]; intros i stats w.
  - exists [], w, []. simpl. now rewrite app_nil_r.
  - destruct (process_file_appends E dest exe total i f stats w)
      as (r & w1 & new1 & Hrun & Htrace & Hh).
    pose proof (process_file_cases E dest exe total i f stats w) as Hcases.
    destruct (generate_unique_path_pure (fs w) dest (PurePath.stem f) ".dng")
      as [[dng_name dng_path] idx].
    destruct Hcases as (r' & w1' & Hrun' & Hinv & _).
    rewrite Hrun in Hrun'. injection Hrun' as _ <-.
    rewrite Htrace, invocations_app in Hinv. apply app_inv_head in Hinv.
    destruct (IH (S i) (record stats r) w1) as (rs & w' & new & Hrest & Hlen & Htr & Hh' & Hn).
    exists (r :: rs), w', (new1 ++ new)%list. simpl. unfold bind. rewrite Hrun.
    split; [exact Hrest|]. split; [now rewrite Hlen|].
    split; [now rewrite Htr, Htrace, <- app_assoc|].
    split; [congruence|].
    rewrite invocations_app, length_app, Hinv, Hn. reflexivity.
Qed.

(** The preparation of a folder that is ready: the world in which the
    directory is listed. *)
Lemma folder_prepared (E : Env) (exe folder : string) (w : World) (k : list Path -> M unit) :
  folder_ready E folder (fs w) = true ->
  process_single_folder E folder exe w
  = (children <- iterdir E (source_of E folder) ;;
     cur <- get_fs ;;
     let raw_files := List.filter (is_raw_file cur) children in
     match raw_files with
     | [] => logging_warning "No supported RAW files found in this directory."
     | _ =>
         logging_info ("Found " +:+ Str.of_nat (length raw_files)
                       +:+ " RAW files to process.") ;;;
         stats <- process_files E (dest_of E folder) exe (length raw_files) 1
                                raw_files (mkStats 0 0 0) ;;
         logging_info (Str.times "-" 40) ;;;
         logging_info ("SUMMARY: " +:+ Str.of_nat (converted stats)
                       +:+ " Converted (DNG) | " +:+ Str.of_nat (copied stats)
                       +:+ " Copied (Originals) | " +:+ Str.of_nat (errors stats)
                       +:+ " Total Failures") ;;;
         logging_info (Str.times "=" 40)
     end)
      (mkWorld (prepared_fs E folder (fs w))
               [FileHandler (log_of E folder); StreamHandler]
               (trace w ++ opening_lines exe (dest_of E folder))).
Proof.
  unfold folder_ready. intros Hready.
  apply andb_prop in Hready as [Hready Hopen]. apply andb_prop in Hready as [Hdir Hmk].
  assert (Hex : path_exists (fs w) (source_of E folder) = true).
  { unfold path_is_dir, path_exists in *.
    destruct (fs w !! source_of E folder) as [[]|]; congruence. }
  unfold process_single_folder. fold (source_of E folder). fold (dest_of E folder).
  rewrite (bind_done get_fs _ w w (fs w) eq_refl).
  rewrite Hex, Hdir. simpl.
  erewrite bind_done; [|apply mkdir_guarded_done; exact Hmk]. simpl.
  erewrite bind_done; [|apply setup_logger_done; exact Hopen]. simpl.
  unfold logging_info at 1. erewrite bind_done; [|reflexivity].
  unfold logging_info at 1. erewrite bind_done; [|reflexivity].
  simpl. unfold opening_lines, prepared_fs, log_of.
  rewrite <- app_assoc. reflexivity.
Qed.

Lemma iterdir_done (E : Env) (p : Path) (names : list string) (w : World) :
  scandir E p (fs w) = inr names ->
  iterdir E p w = (Done (map (child p) names), w).
Proof. intros H. unfold iterdir. unfold_monad. now rewrite H. Qed.

(** X8: a folder that can be prepared and listed but holds no supported
    raw file ends with the warning and nothing else: the output directory
    and the (fresh) log file exist, the handlers are this folder's, and no
    converter is invoked and nothing copied. *)
Theorem folder_without_raw_files (E : Env) (exe folder : string) (names : list string)
    (w : World) :
  folder_ready E folder (fs w) = true ->
  scandir E (source_of E folder) (prepared_fs E folder (fs w)) = inr names ->
  raw_files_of E folder (fs w) names = [] ->
  process_single_folder E folder exe w
  = (Done tt,
     mkWorld (prepared_fs E folder (fs w))
             [FileHandler (log_of E folder); StreamHandler]
             (trace w ++ opening_lines exe (dest_of E folder)
                ++ [Log WARNING "No supported RAW files found in this directory."]))
  /\ path_is_dir (prepared_fs E folder (fs w)) (dest_of E folder) = true
  /\ path_is_file (prepared_fs E folder (fs w)) (log_of E folder) = true.
Proof.
  intros Hready Hls Hnone. split.
  - rewrite (folder_prepared E exe folder w (fun _ => ret tt) Hready).
    erewrite bind_done; [|apply iterdir_done; exact Hls].
    erewrite bind_done; [|reflexivity]. simpl.
    unfold raw_files_of in Hnone. rewrite Hnone.
    unfold logging_warning, emit. simpl. now rewrite <- app_assoc.
  - unfold folder_ready in Hready.
    apply andb_prop in Hready as [Hready Hopen]. apply andb_prop in Hready as [_ Hmk].
    unfold prepared_fs, path_is_dir, path_is_file. rewrite lookup_insert_eq.
    split; [|reflexivity].
    destruct (decide (log_of E folder = dest_of E folder)) as [Heq|Hne].
    + exfalso. unfold open_succeeds in Hopen. rewrite Heq in Hopen.
      unfold after_mkdir, mkdir_succeeds in *.
      destruct (fs w !! dest_of E folder) as [[]|] eqn:Hd;
        rewrite ?Hd, ?lookup_insert_eq in Hopen; discriminate.
    + rewrite lookup_insert_ne by exact Hne.
      unfold after_mkdir, mkdir_succeeds in *.
      destruct (fs w !! dest_of E folder) as [[]|] eqn:Hd;
        rewrite ?Hd, ?lookup_insert_eq; try reflexivity; discriminate.
Qed.

(** X9: a folder that can be prepared and listed and holds raw files is
    processed to the end.  Its log reads: the two opening lines, the number
    of raw files found, the lines of the files, and the three closing lines
    with the summary; the counts of the summary add up to the number of raw
    files, and so does the number of converter invocations. *)
Theorem folder_summary_adds_up (E : Env) (exe folder : string) (names : list string)
    (w : World) :
  folder_ready E folder (fs w) = true ->
  scandir E (source_of E folder) (prepared_fs E folder (fs w)) = inr names ->
  raw_files_of E folder (fs w) names <> [] ->
  exists (stats : Stats) (w' : World) (middle : list event),
    process_single_folder E folder exe w = (Done tt, w')
    /\ trace w'
       = (trace w ++ opening_lines exe (dest_of E folder)
            ++ [Log INFO ("Found "
                          +:+ Str.of_nat (length (raw_files_of E folder (fs w) names))
                          +:+ " RAW files to process.")]
            ++ middle ++ closing_lines stats)%list
    /\ converted stats + copied stats + errors stats
       = length (raw_files_of E folder (fs w) names)
    /\ length (invocations middle) = length (raw_files_of E folder (fs w) names)
    /\ handlers w' = [FileHandler (log_of E folder); StreamHandler].
Proof.
  intros Hready Hls Hsome.
  rewrite (folder_prepared E exe folder w (fun _ => ret tt) Hready).
  erewrite bind_done; [|apply iterdir_done; exact Hls].
  erewrite bind_done; [|reflexivity]. simpl.
  fold (raw_files_of E folder (fs w) names).
  destruct (raw_files_of E folder (fs w) names) as [|f rest] eqn:Hraw; [congruence|].
  unfold logging_info at 1. erewrite bind_done; [|reflexivity].
  match goal with
  | |- context [process_files ?a ?b ?c ?d ?e ?l ?s] =>
      destruct (process_files_appends a b c d e l s
                  (mkWorld (prepared_fs E folder (fs w))
                     [FileHandler (log_of E folder); StreamHandler]
                     ((trace w ++ opening_lines exe (dest_of E folder))
                        ++ [Log INFO ("Found " +:+ Str.of_nat (length (f :: rest))
                                      +:+ " RAW files to process.")])))
        as (rs & w1 & new & Hrun & Hlen & Htrace & Hh & Hinv)
  end.
  simpl in Htrace, Hh.
  erewrite bind_done; [|exact Hrun].
  exists (tally (mkStats 0 0 0) rs). eexists. exists new.
  unfold logging_info, emit, bind. simpl.
  split; [reflexivity|]. simpl.
  split; [rewrite Htrace; unfold closing_lines; rewrite <- !app_assoc; reflexivity|].
  split.
  { pose proof (processed_tally rs (mkStats 0 0 0)) as Hsum.
    unfold processed in Hsum. simpl in Hsum, Hlen |- *. lia. }
  split; [exact Hinv | exact Hh].
Qed.

(** ** Paths and their spelling *)

Lemma split_fields_no_sep (c : ascii) (s : string) :
  Forall (fun x => Str.mem c x = false) (Str.split c s).
Proof.
  induction s as [|a s IH]; simpl; [repeat constructor|].
  destruct (Ascii.eqb a c) eqn:Ha; [constructor; [reflexivity | exact IH]|].
  destruct (Str.split c s) as [|h t]; [repeat constructor; simpl; now rewrite Ha|].
  inversion IH as [|? ? Hh Ht]; subst. constructor; [|exact Ht].
  simpl. now rewrite Ha, Hh.
Qed.

Lemma split_no_sep (c : ascii) (s : string) :
  Str.mem c s = false -> Str.split c s = [s].
Proof.
  induction s as [|a s IH]; simpl; [reflexivity|].
  intros H. apply orb_false_iff in H as [Ha Hs]. rewrite Ha, (IH Hs). reflexivity.
Qed.

Lemma split_app_sep (c : ascii) (a rest : string) :
  Str.mem c a = false -> Str.split c (a +:+ String c rest) = a :: Str.split c rest.
Proof.
  induction a as [|x a IH]; intros H.
  - rewrite string_app_empty. simpl. now rewrite Ascii.eqb_refl.
  - simpl in H. apply orb_false_iff in H as [Hx Ha].
    rewrite string_app_cons. simpl. now rewrite Hx, (IH Ha).
Qed.

Lemma split_join (l : list string) :
  l <> [] -> Forall (fun x => Str.mem "/" x = false) l ->
  Str.split "/" (Str.join "/" l) = l.
Proof.
  unfold Str.join. induction l as [|a [|b t] IH]; intros Hne Hall; [congruence| |].
  - simpl. inversion Hall; subst. now apply split_no_sep.
  - inversion Hall as [|? ? Ha Ht]; subst.
    change (String.concat "/" (a :: b :: t))
      with (a +:+ String "/" (String.concat "/" (b :: t))).
    rewrite (split_app_sep _ _ _ Ha), IH; [reflexivity | discriminate | exact Ht].
Qed.

Lemma splitroot_root (s : string) :
  (PurePath.splitroot s).1 = "" \/ (PurePath.splitroot s).1 = "/"
  \/ (PurePath.splitroot s).1 = "//".
Proof.
  unfold PurePath.splitroot.
  destruct s as [|a [|b [|c s]]]; simpl; auto;
    repeat match goal with
           | |- context [match ?x with Ascii _ _ _ _ _ _ _ _ => _ end] =>
               destruct x as [[] [] [] [] [] [] [] []]; simpl; auto
           end.
Qed.

Lemma of_string_normal (s : string) : normal_path (PurePath.of_string s).
Proof.
  unfold normal_path. split.
  - unfold PurePath.of_string. pose proof (splitroot_root s) as H.
    destruct (PurePath.splitroot s). exact H.
  - rewrite parts_of_string. apply Forall_forall. intros x Hx.
    apply list_elem_of_filter in Hx as [Hp Hx]. split; [exact Hp|].
    pose proof (split_fields_no_sep "/" s) as Hall.
    rewrite Forall_forall in Hall. now apply Hall.
Qed.

Lemma splitroot_relative (a : ascii) (s : string) :
  a <> "/"%char -> PurePath.splitroot (String a s) = ("", String a s).
Proof.
  intros Ha. unfold PurePath.splitroot.
  destruct a as [[] [] [] [] [] [] [] []]; try reflexivity; congruence.
Qed.

Lemma splitroot_single (a : ascii) (s : string) :
  a <> "/"%char -> PurePath.splitroot (String "/" (String a s)) = ("/", String a s).
Proof.
  intros Ha. unfold PurePath.splitroot.
  destruct a as [[] [] [] [] [] [] [] []]; try reflexivity; congruence.
Qed.

Lemma splitroot_double (a : ascii) (s : string) :
  a <> "/"%char ->
  PurePath.splitroot (String "/" (String "/" (String a s))) = ("//", String a s).
Proof.
  intros Ha. unfold PurePath.splitroot.
  destruct a as [[] [] [] [] [] [] [] []]; try reflexivity; congruence.
Qed.

(** [Path(str(p)) == p] for every path in normal form. *)
Lemma of_string_to_string (p : Path) :
  normal_path p -> PurePath.of_string (PurePath.to_string p) = p.
Proof.
  destruct p as [rt ps]. unfold normal_path. simpl. intros [Hroot Hparts].
  destruct ps as [|a t].
  - destruct Hroot as [-> | [-> | ->]]; reflexivity.
  - assert (Hsplit : Str.split "/" (Str.join "/" (a :: t)) = a :: t).
    { apply split_join; [discriminate|].
      eapply Forall_impl; [exact Hparts|]. now intros x [_ Hx]. }
    assert (Hfilter : filter PurePath.proper_part (a :: t) = a :: t).
    { apply filter_proper. eapply Forall_impl; [exact Hparts|]. now intros x [Hx _]. }
    assert (Hhead : exists c s, Str.join "/" (a :: t) = String c s /\ c <> "/"%char).
    { inversion Hparts as [|? ? [[Hne _] Hmem] _]; subst.
      destruct a as [|c a']; [congruence|].
      simpl in Hmem. apply orb_false_iff in Hmem as [Hc _].
      exists c. unfold Str.join.
      destruct t; [exists a' | eexists]; (split; [reflexivity|]);
        intros ->; discriminate. }
    destruct Hhead as (c & s & Hjoin & Hc).
    rewrite Hjoin in Hsplit.
    unfold PurePath.to_string. cbn [root parts]. rewrite Hjoin.
    destruct Hroot as [-> | [-> | ->]].
    + change ("" +:+ String c s) with (String c s). cbn iota.
      unfold PurePath.of_string.
      rewrite (splitroot_relative _ _ Hc), Hsplit, Hfilter. reflexivity.
    + change ("/" +:+ String c s) with (String "/" (String c s)). cbn iota.
      unfold PurePath.of_string.
      rewrite (splitroot_single _ _ Hc), Hsplit, Hfilter. reflexivity.
    + change ("//" +:+ String c s) with (String "/" (String "/" (String c s))). cbn iota.
      unfold PurePath.of_string.
      rewrite (splitroot_double _ _ Hc), Hsplit, Hfilter. reflexivity.
Qed.

(** ** The pre-checks of [main] *)

Lemma find_adobe_executable_unfold (E : Env) (w : World) :
  find_adobe_executable E w = locate_normalized E w.
Proof.
  unfold locate_normalized. rewrite <- find_adobe_executable_default.
  unfold find_adobe_executable.
  destruct (environ E "ADOBE_DNG_PATH") as [v|]; [|reflexivity].
  case_bool_decide; simpl; [|reflexivity].
  unfold bind at 1. unfold bind at 1. unfold get_fs at 1.
  destruct (path_exists (fs w) (PurePath.of_string v)); reflexivity.
Qed.

(** X10: the string [find_adobe_executable] returns names a path that
    exists: read back as a path it is the path whose existence was tested,
    be it the override or the platform default.  The locator returns in the
    world it was called in. *)
Theorem find_adobe_executable_returns_existing (E : Env) (w w' : World) (s : string) :
  find_adobe_executable E w = (Done s, w') ->
  w' = w /\ path_exists (fs w) (PurePath.of_string s) = true.
Proof.
  rewrite find_adobe_executable_unfold. unfold locate_normalized.
  assert (Hdefault : default_resolution E w = (Done s, w') ->
                     w' = w /\ path_exists (fs w) (PurePath.of_string s) = true).
  { unfold default_resolution.
    destruct (default_for (platform_system E)) as [d|]; [|discriminate].
    destruct (path_exists (fs w) (PurePath.of_string d)) eqn:Hd; [|discriminate].
    intros [= <- <-]. auto. }
  destruct (environ E "ADOBE_DNG_PATH") as [v|]; [|exact Hdefault].
  destruct (bool_decide (v <> "") && path_exists (fs w) (PurePath.of_string v)) eqn:Hv;
    [|exact Hdefault].
  intros [= <- <-]. split; [reflexivity|].
  rewrite of_string_to_string by apply of_string_normal.
  now apply andb_prop in Hv as [_ Hv].
Qed.

(** X15: the resolution order of [find_adobe_executable].  An override
    that is a non-empty string naming an existing path is used: the locator
    returns, in the world it was called in, a string that names that path.
    In every other case (no override, an empty one, one naming a missing
    path) the result is the default resolution: the default path of the
    platform when it exists, a fatal error for a platform other than the
    two supported ones, and a fatal error that names the missing default
    path and suggests the override when the default path does not exist. *)
Theorem find_adobe_executable_order (E : Env) (w : World) :
  match environ E "ADOBE_DNG_PATH" with
  | Some v =>
      if bool_decide (v <> "") && path_exists (fs w) (PurePath.of_string v)
      then exists s : string,
          find_adobe_executable E w = (Done s, w)
          /\ PurePath.of_string s = PurePath.of_string v
      else find_adobe_executable E w = default_resolution E w
  | None => find_adobe_executable E w = default_resolution E w
  end.
Proof.
  rewrite find_adobe_executable_unfold. unfold locate_normalized.
  destruct (environ E "ADOBE_DNG_PATH") as [v|]; [|reflexivity].
  destruct (bool_decide (v <> "") && path_exists (fs w) (PurePath.of_string v));
    [|reflexivity].
  eexists. split; [reflexivity|].
  apply of_string_to_string, of_string_normal.
Qed.

(** X11: [sys.exit] is only reached in the pre-checks.  Whenever [main]
    ends by [sys.exit], either the list file is missing (status 1) or the
    locator exited; no folder has been touched: the file system and the
    handlers are as before, and no converter was invoked and nothing copied. *)
Theorem main_exits_only_in_prechecks (E : Env) (list_file : string) (w w' : World)
    (x : exit_arg) :
  main E list_file w = (SysExit x, w') ->
  (path_exists (fs w) (PurePath.of_string list_file) = false /\ x = ExitStatus 1
   \/ path_exists (fs w) (PurePath.of_string list_file) = true
      /\ find_adobe_executable E w = (SysExit x, w'))
  /\ fs w' = fs w /\ handlers w' = handlers w
  /\ invocations (trace w') = invocations (trace w)
  /\ copy_attempts (trace w') = copy_attempts (trace w).
Proof.
  unfold main. rewrite (bind_done get_fs _ w w (fs w) eq_refl).
  destruct (path_exists (fs w) (PurePath.of_string list_file)) eqn:Hlist; simpl.
  - destruct (find_adobe_executable E w) as [[exe|e|x'] w1] eqn:Hfind.
    + rewrite (bind_done _ _ _ _ _ Hfind). intros Hexit. exfalso.
      match type of Hexit with
      | ?m w1 = _ => assert (Hc : contained (fun _ _ => True) m w1)
      end.
      { apply contained_bind; [exact I|]. intros _ w3 _.
        apply contained_bind.
        { eapply contained_weaken; [|apply open_readlines_contained]. auto. }
        intros lines w4 _.
        apply contained_bind; [exact I|]. intros _ w5 _.
        apply contained_bind; [exact I|]. intros _ w6 _.
        apply contained_bind.
        { eapply contained_weaken; [|apply process_folders_contained]. auto. }
        intros _ w7 _. exact I. }
      unfold contained in Hc. rewrite Hexit in Hc. exact Hc.
    + unfold bind at 1. rewrite Hfind. intros [=].
    + unfold bind at 1. rewrite Hfind. intros [= <- <-].
      split; [right; auto|].
      rewrite find_adobe_executable_unfold in Hfind. unfold locate_normalized in Hfind.
      assert (Hdefault : default_resolution E w = (SysExit x', w1) ->
                fs w1 = fs w /\ handlers w1 = handlers w
                /\ invocations (trace w1) = invocations (trace w)
                /\ copy_attempts (trace w1) = copy_attempts (trace w)).
      { unfold default_resolution.
        destruct (default_for (platform_system E)) as [d|]; [|intros [= _ <-]; auto].
        destruct (path_exists (fs w) (PurePath.of_string d)); [discriminate|].
        intros [= _ <-]. simpl.
        rewrite invocations_app, copy_attempts_app. simpl. now rewrite !app_nil_r. }
      destruct (environ E "ADOBE_DNG_PATH") as [v|]; [|now apply Hdefault].
      destruct (bool_decide (v <> "") && path_exists (fs w) (PurePath.of_string v));
        [discriminate | now apply Hdefault].
  - unfold print, emit, sys_exit, bind. intros [= <- <-]. simpl.
    split; [left; auto|].
    rewrite invocations_app, copy_attempts_app. simpl. now rewrite !app_nil_r.
Qed.

(** ** The further properties on the photo shoot *)

Section MoreRuns.

Import Scenario.

(** X1 on the shoot: [/nowhere] is not on the disk. *)
Lemma invalid_folder_is_skipped_shoot :
  process_single_folder (env None converter_creating_output listing) "/nowhere" exe world
  = (Done tt,
     mkWorld (fs world) (handlers world)
       (trace world
          ++ [skipping_line (resolve (env None converter_creating_output listing)
                                     (PurePath.of_string "/nowhere"))]))
  /\ process_folders (env None converter_creating_output listing) exe 2 1
       ["/nowhere"; "/photos/day2"] world
     = process_folders (env None converter_creating_output listing) exe 2 2
         ["/photos/day2"]
         (mkWorld (fs world) (handlers world)
            (trace world
               ++ [folder_banner 2 1 "/nowhere";
                   skipping_line (resolve (env None converter_creating_output listing)
                                          (PurePath.of_string "/nowhere"))])).
Proof.
  apply (invalid_folder_is_skipped (env None converter_creating_output listing) exe
           "/nowhere" ["/photos/day2"] 2 1 world).
  vm_compute. reflexivity.
Defined.

(** X2 on the shoot: a regular file named [DNG] sits in the first folder. *)
Lemma mkdir_failure_abandons_folder_shoot :
  exists e : exn,
    process_single_folder (env None converter_creating_output listing) "/photos/day1" exe
                          (mkWorld (<[dest := RegularFile]> disk) [] [])
    = (Done tt,
       mkWorld (fs (mkWorld (<[dest := RegularFile]> disk) [] []))
         (handlers (mkWorld (<[dest := RegularFile]> disk) [] []))
         (trace (mkWorld (<[dest := RegularFile]> disk) [] [])
            ++ [Print ("CRITICAL ERROR: Could not create output directory at "
                       +:+ PurePath.to_string
                             (resolve (env None converter_creating_output listing)
                                      (PurePath.of_string "/photos/day1"))
                       +:+ ". Error: " +:+ exn_msg e)]))
    /\ (fs (mkWorld (<[dest := RegularFile]> disk) [] [])
          !! (resolve (env None converter_creating_output listing)
                      (PurePath.of_string "/photos/day1") // OUTPUT_DIR_NAME)
        = Some RegularFile
        \/ mkdir_error (env None converter_creating_output listing)
             (resolve (env None converter_creating_output listing)
                      (PurePath.of_string "/photos/day1") // OUTPUT_DIR_NAME)
             (fs (mkWorld (<[dest := RegularFile]> disk) [] []))
           = Some e).
Proof.
  apply (mkdir_failure_abandons_folder (env None converter_creating_output listing) exe
           "/photos/day1" (mkWorld (<[dest := RegularFile]> disk) [] [])).
  - vm_compute. reflexivity.
  - vm_compute. reflexivity.
Defined.


(** X7 on the shoot: the converter leaves no output and the copy succeeds. *)
Lemma fallback_decided_by_copy_shoot :
  exists w' : World,
    process_file (env None converter_without_output listing) dest exe 2 1 cr2
                 (mkStats 0 0 0) world
    = (Done (record (mkStats 0 0 0)
               (if copy_succeeds (env None converter_without_output listing) cr2
                     (generate_unique_path_pure disk dest (PurePath.stem cr2)
                                                (PurePath.suffix cr2)).1.2 disk
                then Copied else Errored)), w')
    /\ fs w'
       = if copy_writes (env None converter_without_output listing) cr2
              (generate_unique_path_pure disk dest (PurePath.stem cr2)
                                         (PurePath.suffix cr2)).1.2 disk
         then <[(generate_unique_path_pure disk dest (PurePath.stem cr2)
                                           (PurePath.suffix cr2)).1.2 := RegularFile]> disk
         else disk.
Proof.
  apply (fallback_decided_by_copy (env None converter_without_output listing) dest exe
           2 1 cr2 (mkStats 0 0 0) world
           (mkCompleted 1 "" ("GPU not available" +:+ nl +:+ "cannot read file" +:+ nl))).
  - reflexivity.
  - vm_compute. reflexivity.
Defined.

(** X8 on the shoot: the first folder lists only its notes. *)
Lemma folder_without_raw_files_shoot :
  process_single_folder (env None converter_creating_output (fun _ _ => inr ["notes.txt"]))
                        "/photos/day1" exe world
  = (Done tt,
     mkWorld (prepared_fs (env None converter_creating_output (fun _ _ => inr ["notes.txt"]))
                          "/photos/day1" (fs world))
       [FileHandler (log_of (env None converter_creating_output (fun _ _ => inr ["notes.txt"]))
                            "/photos/day1"); StreamHandler]
       (trace world
          ++ opening_lines exe
               (dest_of (env None converter_creating_output (fun _ _ => inr ["notes.txt"]))
                        "/photos/day1")
          ++ [Log WARNING "No supported RAW files found in this directory."]))
  /\ path_is_dir (prepared_fs (env None converter_creating_output
                                   (fun _ _ => inr ["notes.txt"]))
                              "/photos/day1" (fs world))
                 (dest_of (env None converter_creating_output (fun _ _ => inr ["notes.txt"]))
                          "/photos/day1") = true
  /\ path_is_file (prepared_fs (env None converter_creating_output
                                    (fun _ _ => inr ["notes.txt"]))
                               "/photos/day1" (fs world))
                  (log_of (env None converter_creating_output (fun _ _ => inr ["notes.txt"]))
                          "/photos/day1") = true.
Proof.
  apply (folder_without_raw_files
           (env None converter_creating_output (fun _ _ => inr ["notes.txt"]))
           exe "/photos/day1" ["notes.txt"] world).
  - vm_compute. reflexivity.
  - reflexivity.
  - vm_compute. reflexivity.
Defined.

(** X9 on the shoot: the first folder with its two raw files. *)
Lemma folder_summary_adds_up_shoot :
  exists (stats : Stats) (w' : World) (middle : list event),
    process_single_folder (env None converter_creating_output listing) "/photos/day1" exe
                          world = (Done tt, w')
    /\ trace w'
       = (trace world
            ++ opening_lines exe (dest_of (env None converter_creating_output listing)
                                          "/photos/day1")
            ++ [Log INFO ("Found "
                          +:+ Str.of_nat
                                (length (raw_files_of
                                           (env None converter_creating_output listing)
                                           "/photos/day1" (fs world)
                                           ["IMG_0001.cr2"; "notes.txt"; "IMG_0001.cr3"]))
                          +:+ " RAW files to process.")]
            ++ middle ++ closing_lines stats)%list
    /\ converted stats + copied stats + errors stats
       = length (raw_files_of (env None converter_creating_output listing)
                              "/photos/day1" (fs world)
                              ["IMG_0001.cr2"; "notes.txt"; "IMG_0001.cr3"])
    /\ length (invocations middle)
       = length (raw_files_of (env None converter_creating_output listing)
                              "/photos/day1" (fs world)
                              ["IMG_0001.cr2"; "notes.txt"; "IMG_0001.cr3"])
    /\ handlers w'
       = [FileHandler (log_of (env None converter_creating_output listing) "/photos/day1");
          StreamHandler].
Proof.
  apply (folder_summary_adds_up (env None converter_creating_output listing) exe
           "/photos/day1" ["IMG_0001.cr2"; "notes.txt"; "IMG_0001.cr3"] world).
  - vm_compute. reflexivity.
  - vm_compute. reflexivity.
  - vm_compute. discriminate.
Defined.

Example default_converter_found :
  path_exists disk (PurePath.of_string DARWIN_DEFAULT) = true.
Proof. vm_compute. reflexivity. Qed.

Lemma locator_finds_default :
  find_adobe_executable (env None converter_creating_output listing) world
  = (Done exe, world).
Proof.
  rewrite find_adobe_executable_unfold. unfold locate_normalized, default_resolution.
  simpl. change (fs world) with disk. now rewrite default_converter_found.
Qed.

(** X10 on the shoot: the default converter of the platform is installed. *)
Lemma find_adobe_executable_returns_existing_shoot :
  world = world /\ path_exists (fs world) (PurePath.of_string exe) = true.
Proof.
  apply (find_adobe_executable_returns_existing
           (env None converter_creating_output listing) world world exe).
  apply locator_finds_default.
Defined.

(** X11 on an empty disk: the list file is missing. *)
Lemma main_exits_only_in_prechecks_empty_disk :
  (path_exists (fs (mkWorld ∅ [] [])) (PurePath.of_string list_file) = false
   /\ ExitStatus 1 = ExitStatus 1
   \/ path_exists (fs (mkWorld ∅ [] [])) (PurePath.of_string list_file) = true
      /\ find_adobe_executable (env None converter_creating_output listing)
                               (mkWorld ∅ [] [])
         = (SysExit (ExitStatus 1),
            mkWorld ∅ [] [Print "Error: The provided list file does not exist."]))
  /\ fs (mkWorld ∅ [] [Print "Error: The provided list file does not exist."])
     = fs (mkWorld ∅ [] [])
  /\ handlers (mkWorld ∅ [] [Print "Error: The provided list file does not exist."])
     = handlers (mkWorld ∅ [] [])
  /\ invocations (trace (mkWorld ∅ [] [Print "Error: The provided list file does not exist."]))
     = invocations (trace (mkWorld ∅ [] []))
  /\ copy_attempts (trace (mkWorld ∅ [] [Print "Error: The provided list file does not exist."]))
     = copy_attempts (trace (mkWorld ∅ [] [])).
Proof.
  apply (main_exits_only_in_prechecks (env None converter_creating_output listing)
           list_file (mkWorld ∅ [] [])
           (mkWorld ∅ [] [Print "Error: The provided list file does not exist."])
           (ExitStatus 1)).
  reflexivity.
Defined.

(** X12 on the shoot: the converter cannot be started. *)
Lemma no_copy_when_invocation_raises_shoot :
  exists w' : World,
    process_file (env None converter_not_launched listing) dest exe 2 1 cr2
                 (mkStats 0 0 0) world = (Done (record (mkStats 0 0 0) Errored), w')
    /\ copy_attempts (trace w') = copy_attempts (trace world).
Proof.
  apply (no_copy_when_invocation_raises (env None converter_not_launched listing) dest exe
           2 1 cr2 (mkStats 0 0 0) world (Exception "[Errno 13] Permission denied") disk).
  reflexivity.
Defined.


(** X14 on the shoot: a file that is no candidate appears in the destination. *)
Lemma generate_unique_path_stable_shoot :
  generate_unique_path_pure (<[dest // "unrelated.txt" := RegularFile]> disk)
                            dest "IMG_0001" ".dng"
  = generate_unique_path_pure disk dest "IMG_0001" ".dng".
Proof.
  apply (generate_unique_path_stable disk (<[dest // "unrelated.txt" := RegularFile]> disk)
           dest "IMG_0001" ".dng").
  intros k Hk. rewrite first_name_free in Hk. simpl in Hk.
  assert (k = 0) as -> by lia.
  vm_compute. reflexivity.
Defined.

End MoreRuns.
